(** * SQLiteWrapper.cpp: a shallow embedding and its properties

    The file embeds [src/AppInstallerRepositoryCore/SQLiteWrapper.cpp]:
    the typed parameter binding, [Connection], [Statement] and [Savepoint].
    The SQLite engine is an external C library; it is a parameter of the
    development ([Engine]): every native call is appended to a trace and
    answered by the engine, which threads a state of its own.  C++ control
    effects (a thrown exception, wil's fail-fast, undefined behaviour) are
    the outcomes of a small state-and-outcome monad. *)

From Stdlib Require Import ZArith List String Ascii Bool Lia.
Import ListNotations.

Local Open Scope Z_scope.

(* ================================================================= *)
(** ** Machine integers and C strings *)

(** [static_cast<int>] of an integer value: two's complement, 32 bits. *)
Definition static_cast_int (z : Z) : Z := (z + 2 ^ 31) mod 2 ^ 32 - 2 ^ 31.

(** Arithmetic in [size_t] (64 bits, unsigned). *)
Definition size_t (z : Z) : Z := z mod 2 ^ 64.

Definition INT_MAX : Z := 2147483647.

(** The null character. *)
Definition NUL : ascii := Ascii.zero.

(** [std::string::size]. *)
Definition size (s : string) : nat := String.length s.

(** [std::string::c_str]: the memory behind the returned pointer, the
    characters of the string followed by the terminator. *)
Definition c_str (s : string) : string := (s ++ String NUL EmptyString)%string.

(** [std::string_view]: a pointer, given by the memory readable from it
    onwards, and a length. *)
Record string_view := { sv_data : string; sv_size : nat }.

(** [std::string(sv)]: copies [sv_size] characters from [sv_data]; [None]
    when the view claims more characters than its memory holds. *)
Definition string_of_view (sv : string_view) : option string :=
  if Nat.leb (sv_size sv) (String.length (sv_data sv))
  then Some (substring 0 (sv_size sv) (sv_data sv))
  else None.

(** [strlen]: the number of characters before the first null character;
    [None] when the memory holds none (the read runs off the buffer). *)
Fixpoint strlen (mem : string) : option nat :=
  match mem with
  | EmptyString => None
  | String c rest =>
      if Ascii.eqb c NUL then Some O
      else match strlen rest with
           | Some n => Some (S n)
           | None => None
           end
  end.

(** [std::string(const char* )] and [std::string_view(const char* )] both
    measure the text with [strlen]. *)
Definition string_of_cstr (mem : string) : option string :=
  match strlen mem with
  | Some n => Some (substring 0 n mem)
  | None => None
  end.

Definition view_of_cstr (mem : string) : option string_view :=
  match strlen mem with
  | Some n => Some {| sv_data := mem; sv_size := n |}
  | None => None
  end.

(* ================================================================= *)
(** ** The native engine *)

(** Constants of [sqlite3.h]. *)
Definition SQLITE_OK : Z := 0.
Definition SQLITE_ROW : Z := 100.
Definition SQLITE_DONE : Z := 101.
Definition SQLITE_NULL : Z := 5.
Definition SQLITE_UTF8 : Z := 1.
Definition SQLITE_PREPARE_PERSISTENT : Z := 1.
(** [SQLITE_TRANSIENT] is [(sqlite3_destructor_type)-1]. *)
Definition SQLITE_TRANSIENT : Z := -1.

(** The native calls made by the wrapper, with the arguments it passes.
    Handles ([sqlite3*], [sqlite3_stmt*]) are pointer values; a pointer to
    characters is given by the memory it points to. *)
Inductive Call : Type :=
| sqlite3_open_v2 (filename : string) (flags : Z)
| sqlite3_extended_result_codes (db : Z) (onoff : Z)
| sqlite3_last_insert_rowid (db : Z)
| sqlite3_prepare_v3 (db : Z) (zSql : string) (nByte : Z) (prepFlags : Z)
| sqlite3_bind_null (stmt : Z) (index : Z)
| sqlite3_bind_text64 (stmt : Z) (index : Z) (text : string) (n : Z)
                      (destructor : Z) (encoding : Z)
| sqlite3_bind_int (stmt : Z) (index : Z) (v : Z)
| sqlite3_bind_int64 (stmt : Z) (index : Z) (v : Z)
| sqlite3_step (stmt : Z)
| sqlite3_column_type (stmt : Z) (column : Z)
| sqlite3_column_text (stmt : Z) (column : Z)
| sqlite3_column_int (stmt : Z) (column : Z)
| sqlite3_column_int64 (stmt : Z) (column : Z)
| sqlite3_reset (stmt : Z).

(** What a native call gives back: its integer return value, the handle it
    writes through its out-parameter ([ppDb], [ppStmt]) and, for
    [sqlite3_column_text], the text value the returned pointer refers to
    ([None] is the null pointer); the memory at that pointer is the text
    followed by the engine's zero terminator. *)
Record Reply := { ret_val : Z; out_handle : Z; ret_text : option string }.

Record Engine := {
  eng_state : Type;
  native : Call -> eng_state -> Reply * eng_state;
  sqlite3_errstr : Z -> string
}.

(* ================================================================= *)
(** ** Outcomes and the monad *)

Inductive Exception : Type :=
| SQLiteException (error : Z) (message : string)
| HResultException (hr : Z).

(** How a C++ operation ends: it returns, it throws, the process is
    terminated (wil's [FAIL_FAST_MSG], a failed [assert]), or the behaviour
    is undefined. *)
Inductive Outcome (A : Type) : Type :=
| Normal (a : A)
| Throw (e : Exception)
| FailFast (msg : string)
| Undefined.
Arguments Normal {A} a.
Arguments Throw {A} e.
Arguments FailFast {A} msg.
Arguments Undefined {A}.

Definition M (S A : Type) : Type := S -> Outcome A * S.

Definition ret {S A : Type} (a : A) : M S A := fun s => (Normal a, s).

Definition bind {S A B : Type} (m : M S A) (k : A -> M S B) : M S B :=
  fun s =>
    match m s with
    | (Normal a, s') => k a s'
    | (Throw e, s') => (Throw e, s')
    | (FailFast msg, s') => (FailFast msg, s')
    | (Undefined, s') => (Undefined, s')
    end.

Notation "x <- m ;; k" := (bind m (fun x => k))
  (at level 61, m at next level, right associativity).
Notation "m ;;; k" := (bind m (fun _ => k))
  (at level 61, right associativity).

Definition throw {S A : Type} (e : Exception) : M S A := fun s => (Throw e, s).
Definition fail_fast {S A : Type} (msg : string) : M S A :=
  fun s => (FailFast msg, s).
Definition undefined {S A : Type} : M S A := fun s => (Undefined, s).

Definition get {S : Type} : M S S := fun s => (Normal s, s).
Definition modify {S : Type} (f : S -> S) : M S unit := fun s => (Normal tt, f s).

(** Run a computation on a part of the state: a member of [this], or the
    world next to [this]. *)
Definition zoom {S P A : Type} (rd : S -> P) (wr : P -> S -> S)
    (m : M P A) : M S A :=
  fun s => let '(r, p') := m (rd s) in (r, wr p' s).

Definition in_world {O W A : Type} (m : M W A) : M (O * W) A :=
  zoom snd (fun w s => (fst s, w)) m.

Definition on_this {O W A : Type} (m : M O A) : M (O * W) A :=
  zoom fst (fun o s => (o, snd s)) m.

(** A method called on a member [rd this] of [this]. *)
Definition on_member {O P W A : Type} (rd : O -> P) (wr : P -> O -> O)
    (m : M (P * W) A) : M (O * W) A :=
  zoom (fun s => (rd (fst s), snd s))
       (fun pw s => (wr (fst pw) (fst s), snd pw)) m.

(** A method called on a local object: the object after the call is
    returned with the result. *)
Definition on_local {P W A : Type} (p : P) (m : M (P * W) A) : M W (A * P) :=
  fun w =>
    match m (p, w) with
    | (Normal a, (p', w')) => (Normal (a, p'), w')
    | (Throw e, (_, w')) => (Throw e, w')
    | (FailFast msg, (_, w')) => (FailFast msg, w')
    | (Undefined, (_, w')) => (Undefined, w')
    end.

(* ================================================================= *)
(** ** The wrapper *)

Inductive State : Type := Prepared | HasRow | Completed | Error.

Record Connection := { m_dbconn : Z }.

Record Statement := { m_id : Z; m_stmt : Z; m_state : State }.

(** The members of [Savepoint] that SQLiteWrapper.cpp reads and writes. *)
Record Savepoint := {
  m_name : string;
  m_inProgress : bool;
  m_rollback : Statement;
  m_commit : Statement
}.

Definition set_m_inProgress (b : bool) (this : Savepoint) : Savepoint :=
  {| m_name := m_name this; m_inProgress := b;
     m_rollback := m_rollback this; m_commit := m_commit this |}.

Definition set_m_rollback (st : Statement) (this : Savepoint) : Savepoint :=
  {| m_name := m_name this; m_inProgress := m_inProgress this;
     m_rollback := st; m_commit := m_commit this |}.

Definition set_m_commit (st : Statement) (this : Savepoint) : Savepoint :=
  {| m_name := m_name this; m_inProgress := m_inProgress this;
     m_rollback := m_rollback this; m_commit := st |}.

(** The statement handles a savepoint holds. *)
Definition Savepoint_handles (this : Savepoint) : list Z :=
  [m_stmt (m_rollback this); m_stmt (m_commit this)].

(** The operations a caller can invoke on a savepoint. *)
Inductive Op : Type := OpCommit | OpRollback.

Definition set_m_state (st : State) (this : Statement) : Statement :=
  {| m_id := m_id this; m_stmt := m_stmt this; m_state := st |}.

(** [RowIDName]. *)
Definition RowIDName : string := "rowid".

Section Wrapper.

Variable E : Engine.

(** The process: the engine's state, the native calls made so far, and the
    counter of [GetNextStatementId]. *)
Record World := { db : eng_state E; trace : list Call; statementId : Z }.

(** A native call: recorded, then answered by the engine. *)
Definition call (c : Call) : M World Reply :=
  fun w =>
    let '(r, db') := native E c (db w) in
    (Normal r,
     {| db := db'; trace := trace w ++ [c]; statementId := statementId w |}).

(** [THROW_SQLITE]. *)
Definition THROW_SQLITE {S A : Type} (error : Z) : M S A :=
  throw (SQLiteException error (sqlite3_errstr E error)).

(** [THROW_IF_SQLITE_FAILED]. *)
Definition THROW_IF_SQLITE_FAILED {S : Type} (statement : M S Reply) : M S Reply :=
  r <- statement ;;
  if ret_val r =? SQLITE_OK then ret r else THROW_SQLITE (ret_val r).

(** [GetNextStatementId]: [++statementId] on a [size_t] counter. *)
Definition GetNextStatementId : M World Z :=
  fun w =>
    let n := size_t (statementId w + 1) in
    (Normal n, {| db := db w; trace := trace w; statementId := n |}).

(** *** Statement *)

(** [Statement::Step]. *)
Definition Statement_Step (failFastOnError : bool) : M (Statement * World) bool :=
  this <- on_this get ;;
  r <- in_world (call (sqlite3_step (m_stmt this))) ;;
  let result := ret_val r in
  if result =? SQLITE_ROW then
    on_this (modify (set_m_state HasRow)) ;;;
    ret true
  else if result =? SQLITE_DONE then
    on_this (modify (set_m_state Completed)) ;;;
    ret false
  else
    on_this (modify (set_m_state Error)) ;;;
    if failFastOnError
    then fail_fast "Critical SQL statement failed"
    else THROW_SQLITE result.

(** The HRESULT [E_UNEXPECTED]. *)
Definition E_UNEXPECTED : Z := static_cast_int 0x8000FFFF.

(** [Statement::Execute]: [THROW_HR_IF(E_UNEXPECTED, Step(failFastOnError))]. *)
Definition Statement_Execute (failFastOnError : bool) : M (Statement * World) unit :=
  row <- Statement_Step failFastOnError ;;
  if row then throw (HResultException E_UNEXPECTED) else ret tt.

(** [Statement::GetColumnIsNull]. *)
Definition Statement_GetColumnIsNull (column : Z) : M (Statement * World) bool :=
  this <- on_this get ;;
  r <- in_world (call (sqlite3_column_type (m_stmt this) column)) ;;
  let type := ret_val r in
  ret (type =? SQLITE_NULL).

(** [Statement::Reset]: the return value of [sqlite3_reset] is ignored. *)
Definition Statement_Reset : M (Statement * World) unit :=
  this <- on_this get ;;
  in_world (call (sqlite3_reset (m_stmt this))) ;;;
  on_this (modify (set_m_state Prepared)).

(** *** Typed parameter binding ([details::ParameterSpecificsImpl]) *)

Definition Bind_nullptr (stmt index : Z) : M World unit :=
  THROW_IF_SQLITE_FAILED (call (sqlite3_bind_null stmt index)) ;;; ret tt.

(** [ParameterSpecificsImpl<std::string>::Bind]. *)
Definition Bind_string (stmt index : Z) (v : string) : M World unit :=
  THROW_IF_SQLITE_FAILED
    (call (sqlite3_bind_text64 stmt index (c_str v) (Z.of_nat (size v))
             SQLITE_TRANSIENT SQLITE_UTF8)) ;;;
  ret tt.

(** [ParameterSpecificsImpl<std::string_view>::Bind]. *)
Definition Bind_string_view (stmt index : Z) (v : string_view) : M World unit :=
  THROW_IF_SQLITE_FAILED
    (call (sqlite3_bind_text64 stmt index (sv_data v) (Z.of_nat (sv_size v))
             SQLITE_TRANSIENT SQLITE_UTF8)) ;;;
  ret tt.

Definition Bind_int (stmt index v : Z) : M World unit :=
  THROW_IF_SQLITE_FAILED (call (sqlite3_bind_int stmt index v)) ;;; ret tt.

Definition Bind_int64 (stmt index v : Z) : M World unit :=
  THROW_IF_SQLITE_FAILED (call (sqlite3_bind_int64 stmt index v)) ;;; ret tt.

(** [ParameterSpecificsImpl<std::string>::GetColumn]: the pointer returned
    by [sqlite3_column_text] is converted to [std::string], which reads it
    as a C string; from a null pointer that is undefined. *)
Definition GetColumn_string (stmt column : Z) : M World string :=
  r <- call (sqlite3_column_text stmt column) ;;
  match ret_text r with
  | None => undefined
  | Some text =>
      match string_of_cstr (c_str text) with
      | Some s => ret s
      | None => undefined
      end
  end.

Definition GetColumn_int (stmt column : Z) : M World Z :=
  r <- call (sqlite3_column_int stmt column) ;; ret (ret_val r).

Definition GetColumn_int64 (stmt column : Z) : M World Z :=
  r <- call (sqlite3_column_int64 stmt column) ;; ret (ret_val r).

(** [Statement::GetColumn<std::string>], which the header forwards to the
    parameter specifics with the statement's handle. *)
Definition Statement_GetColumn_string (column : Z) : M (Statement * World) string :=
  this <- on_this get ;;
  in_world (GetColumn_string (m_stmt this) column).

(** *** Connection *)

(** [Connection::Connection]; [disposition] and [flags] are the integer
    values of the two enumerations. *)
Definition Connection_ctor (target : string) (disposition flags : Z)
    : M World Connection :=
  let resultingFlags := Z.lor disposition flags in
  r <- THROW_IF_SQLITE_FAILED
         (call (sqlite3_open_v2 (c_str target) resultingFlags)) ;;
  ret {| m_dbconn := out_handle r |}.

(** [Connection::Create]. *)
Definition Connection_Create (target : string) (disposition flags : Z)
    : M World Connection :=
  result <- Connection_ctor target disposition flags ;;
  THROW_IF_SQLITE_FAILED
    (call (sqlite3_extended_result_codes (m_dbconn result) 1)) ;;;
  ret result.

(** [Connection::GetLastInsertRowID]. *)
Definition Connection_GetLastInsertRowID (this : Connection) : M World Z :=
  r <- call (sqlite3_last_insert_rowid (m_dbconn this)) ;; ret (ret_val r).

(** *** Creating statements *)

(** The condition of the constructor's [assert]: the character at
    [sql.data()[sql.size()]]; [None] when that read is outside the memory
    of the view. *)
Definition Statement_assertion (sql : string_view) : option bool :=
  match String.get (sv_size sql) (sv_data sql) with
  | Some c => Some (Ascii.eqb c NUL)
  | None => None
  end.

(** The byte count handed to [sqlite3_prepare_v3]:
    [static_cast<int>(sql.size() + 1)]. *)
Definition Statement_nByte (sql : string_view) : Z :=
  static_cast_int (size_t (Z.of_nat (sv_size sql) + 1)).

(** Modelled from the spec: the initial value of [m_state] is set by the
    class declaration in SQLiteWrapper.h; a created statement is in state
    [Prepared]. *)
Definition m_state_initial : State := Prepared.

(** [Statement::Statement], in a build where [assert] is active: a false
    assertion ends the process, and reading [sql.data()[sql.size()]]
    outside the memory of the view is undefined. *)
Definition Statement_ctor (connection : Connection) (sql : string_view)
    (persistent : bool) : M World Statement :=
  id <- GetNextStatementId ;;
  match Statement_assertion sql with
  | None => undefined
  | Some false => fail_fast "assert(sql.data()[sql.size()] == 0)"
  | Some true =>
      r <- THROW_IF_SQLITE_FAILED
             (call (sqlite3_prepare_v3 (m_dbconn connection) (sv_data sql)
                      (Statement_nByte sql)
                      (if persistent then SQLITE_PREPARE_PERSISTENT else 0))) ;;
      ret {| m_id := id; m_stmt := out_handle r; m_state := m_state_initial |}
  end.

(** [Statement::Create(Connection&, const std::string&, bool)]. *)
Definition Statement_Create_string (connection : Connection) (sql : string)
    (persistent : bool) : M World Statement :=
  Statement_ctor connection {| sv_data := c_str sql; sv_size := size sql |}
                 persistent.

(** [Statement::Create(Connection&, std::string_view, bool)]. *)
Definition Statement_Create_string_view (connection : Connection)
    (sql : string_view) (persistent : bool) : M World Statement :=
  match string_of_view sql with
  | Some copy => Statement_Create_string connection copy persistent
  | None => undefined
  end.

(** [Statement::Create(Connection&, char const* const, bool)]: the pointer
    is converted to [std::string_view]. *)
Definition Statement_Create_cstr (connection : Connection) (sql : string)
    (persistent : bool) : M World Statement :=
  match view_of_cstr sql with
  | Some sv => Statement_ctor connection sv persistent
  | None => undefined
  end.

(** *** Savepoint *)

(** Modelled from the spec: the default argument of [Statement::Create] is
    declared in SQLiteWrapper.h; the spec gives [persistent=false]. *)
Definition persistent_default : bool := false.

(** Modelled from the spec: the default argument of [Statement::Step] is
    declared in SQLiteWrapper.h; the spec gives [failFastOnError=false]. *)
Definition failFastOnError_default : bool := false.

(** Modelled from the spec: the initial value of [m_inProgress] is set by
    the class declaration in SQLiteWrapper.h; a savepoint is in progress
    after construction. *)
Definition m_inProgress_initial : bool := true.

(** The SQL text of the three statements of a savepoint. *)

Definition sql_savepoint (name : string) : string :=
  ("SAVEPOINT [" ++ name ++ "]")%string.
Definition sql_rollback_to (name : string) : string :=
  ("ROLLBACK TO [" ++ name ++ "]")%string.
Definition sql_release (name : string) : string :=
  ("RELEASE [" ++ name ++ "]")%string.

(** [Savepoint::Savepoint]: [begin] is a local of the constructor. *)
Definition Savepoint_ctor (connection : Connection) (name : string)
    : M World Savepoint :=
  begin <- Statement_Create_string connection (sql_savepoint name)
             persistent_default ;;
  rollback <- Statement_Create_string connection (sql_rollback_to name) true ;;
  commit <- Statement_Create_string connection (sql_release name) true ;;
  on_local begin (Statement_Step failFastOnError_default) ;;;
  ret {| m_name := name; m_inProgress := m_inProgress_initial;
         m_rollback := rollback; m_commit := commit |}.

(** [Savepoint::Create]. *)
Definition Savepoint_Create (connection : Connection) (name : string)
    : M World Savepoint :=
  Savepoint_ctor connection name.

(** [Savepoint::Rollback]. *)
Definition Savepoint_Rollback : M (Savepoint * World) unit :=
  this <- on_this get ;;
  if m_inProgress this then
    on_member m_rollback set_m_rollback (Statement_Step true) ;;;
    on_this (modify (set_m_inProgress false))
  else ret tt.

(** [Savepoint::Commit]. *)
Definition Savepoint_Commit : M (Savepoint * World) unit :=
  this <- on_this get ;;
  if m_inProgress this then
    on_member m_commit set_m_commit (Statement_Step true) ;;;
    on_this (modify (set_m_inProgress false))
  else ret tt.

(** [Savepoint::~Savepoint]. *)
Definition Savepoint_dtor : M (Savepoint * World) unit :=
  Savepoint_Rollback.

(** One call of [Commit] or [Rollback] on a savepoint. *)
Definition run_op (o : Op) : M (Savepoint * World) unit :=
  match o with
  | OpCommit => Savepoint_Commit
  | OpRollback => Savepoint_Rollback
  end.

(** A sequence of such calls, ended by the first that does not return. *)
Fixpoint run_ops (ops : list Op) : M (Savepoint * World) unit :=
  match ops with
  | [] => ret tt
  | o :: rest => run_op o ;;; run_ops rest
  end.

(** The end of the scope that owns a savepoint: the destructor runs when
    the body returns and when it throws (stack unwinding), and the
    body's result or exception is what leaves the scope.  After a fail-fast
    or undefined behaviour nothing runs. *)
Definition scope_exit {A : Type} (body : M (Savepoint * World) A)
    : M (Savepoint * World) A :=
  fun s =>
    match body s with
    | (Normal a, s') => (Savepoint_dtor ;;; ret a) s'
    | (Throw e, s') => (Savepoint_dtor ;;; throw e) s'
    | (FailFast msg, s') => (FailFast msg, s')
    | (Undefined, s') => (Undefined, s')
    end.

End Wrapper.

Arguments db {E} w.
Arguments trace {E} w.
Arguments statementId {E} w.

(* ================================================================= *)
(** ** Vocabulary for the statements below *)

(** The world after one native call. *)
Definition after_call {E : Engine} (c : Call) (w : World E) : World E :=
  Build_World E (snd (native E c (db w))) (trace w ++ [c]) (statementId w).

(** The engine's answer to a native call made in world [w]. *)
Definition answer {E : Engine} (c : Call) (w : World E) : Reply :=
  fst (native E c (db w)).

(** The world after [GetNextStatementId]. *)
Definition next_id {E : Engine} (w : World E) : World E :=
  Build_World E (db w) (trace w) (size_t (statementId w + 1)).

(** A step status with which [Step] returns. *)
Definition step_ok (result : Z) : bool :=
  (result =? SQLITE_ROW) || (result =? SQLITE_DONE).

(** The outcome of a [THROW_IF_SQLITE_FAILED] around one native call. *)
Definition checked {A : Type} (E : Engine) (c : Call) (w : World E) (a : A)
    : Outcome A :=
  if ret_val (answer c w) =? SQLITE_OK then Normal a
  else Throw (SQLiteException (ret_val (answer c w))
                (sqlite3_errstr E (ret_val (answer c w)))).

(** What [Statement::Statement] does with a view whose assertion holds:
    the next statement id is taken, [sqlite3_prepare_v3] is called on the
    memory [buf] with byte count [nByte], and the statement is returned in
    state [Prepared] unless the call fails. *)
Definition prepares (E : Engine) (connection : Connection) (buf : string)
    (nByte : Z) (persistent : bool) (w : World E)
    : Outcome Statement * World E :=
  let w0 := next_id w in
  let c := sqlite3_prepare_v3 (m_dbconn connection) buf nByte
             (if persistent then SQLITE_PREPARE_PERSISTENT else 0) in
  (checked E c w0 {| m_id := statementId w0; m_stmt := out_handle (answer c w0);
                     m_state := Prepared |},
   after_call c w0).

(** A creation of a statement that hands [sqlite3_prepare_v3] a buffer
    with [n] characters of SQL and the null character after them. *)
Definition null_terminated_prepare (E : Engine) (connection : Connection)
    (persistent : bool) (w : World E) (run : Outcome Statement * World E)
    (buf : string) (n : nat) : Prop :=
  Statement_assertion {| sv_data := buf; sv_size := n |} = Some true /\
  String.get n buf = Some NUL /\
  run = prepares E connection buf
          (static_cast_int (size_t (Z.of_nat n + 1))) persistent w.

(** The [sqlite3_prepare_v3] call of a statement created from a
    [std::string]. *)
Definition prepare_of (connection : Connection) (sql : string)
    (persistent : bool) : Call :=
  sqlite3_prepare_v3 (m_dbconn connection) (c_str sql)
    (static_cast_int (size_t (Z.of_nat (size sql) + 1)))
    (if persistent then SQLITE_PREPARE_PERSISTENT else 0).

(** The exception [THROW_SQLITE] raises for a native status. *)
Definition sqlite_error (E : Engine) (error : Z) : Exception :=
  SQLiteException error (sqlite3_errstr E error).

(** The run of [Savepoint::Savepoint] from world [w]: the native calls it
    can make, the engine's answers, the worlds in between and the savepoint
    it builds. *)
Section CreateRun.

Variable E : Engine.
Variable connection : Connection.
Variable name : string.
Variable w : World E.

Definition prepare_begin : Call :=
  prepare_of connection (sql_savepoint name) false.
Definition prepare_rollback : Call :=
  prepare_of connection (sql_rollback_to name) true.
Definition prepare_commit : Call :=
  prepare_of connection (sql_release name) true.

Definition reply_begin : Reply := answer prepare_begin (next_id w).
Definition after_begin : World E := after_call prepare_begin (next_id w).
Definition reply_rollback : Reply := answer prepare_rollback (next_id after_begin).
Definition after_rollback : World E :=
  after_call prepare_rollback (next_id after_begin).
Definition reply_commit : Reply := answer prepare_commit (next_id after_rollback).
Definition after_commit : World E :=
  after_call prepare_commit (next_id after_rollback).

Definition step_begin : Call := sqlite3_step (out_handle reply_begin).
Definition reply_step : Reply := answer step_begin after_commit.
Definition after_step : World E := after_call step_begin after_commit.

Definition created : Savepoint :=
  {| m_name := name; m_inProgress := true;
     m_rollback := {| m_id := statementId (next_id after_begin);
                      m_stmt := out_handle reply_rollback;
                      m_state := Prepared |};
     m_commit := {| m_id := statementId (next_id after_rollback);
                    m_stmt := out_handle reply_commit;
                    m_state := Prepared |} |}.

(** Every native status of the construction is a success. *)
Definition create_ok : bool :=
  (ret_val reply_begin =? SQLITE_OK) && (ret_val reply_rollback =? SQLITE_OK)
  && (ret_val reply_commit =? SQLITE_OK) && step_ok (ret_val reply_step).

End CreateRun.

(** The handle stepped by an operation of a savepoint. *)
Definition op_statement (o : Op) (this : Savepoint) : Statement :=
  match o with
  | OpCommit => m_commit this
  | OpRollback => m_rollback this
  end.

Definition set_op_statement (o : Op) (st : Statement) (this : Savepoint)
    : Savepoint :=
  match o with
  | OpCommit => set_m_commit st this
  | OpRollback => set_m_rollback st this
  end.

(** Two values of a savepoint with the same name and the same two
    statements (handle and id); the statements' states may differ. *)
Definition same_statements (a b : Savepoint) : Prop :=
  m_name b = m_name a /\
  m_stmt (m_rollback b) = m_stmt (m_rollback a) /\
  m_id (m_rollback b) = m_id (m_rollback a) /\
  m_stmt (m_commit b) = m_stmt (m_commit a) /\
  m_id (m_commit b) = m_id (m_commit a).

(** The characters of a text before its first null character. *)
Fixpoint until_NUL (text : string) : string :=
  match text with
  | EmptyString => EmptyString
  | String c rest =>
      if Ascii.eqb c NUL then EmptyString else String c (until_NUL rest)
  end.

(** A text of [n] copies of one character. *)
Fixpoint replicate (n : nat) (c : ascii) : string :=
  match n with
  | O => EmptyString
  | S n' => String c (replicate n' c)
  end.

(* ================================================================= *)
(** ** Two small engines, to run the wrapper on *)

Definition errstr (code : Z) : string :=
  if code =? 0 then "not an error"
  else if code =? 1 then "SQL logic error"
  else if code =? 14 then "unable to open database file"
  else "unknown error".

Definition reply (rc handle : Z) : Reply :=
  {| ret_val := rc; out_handle := handle; ret_text := None |}.

(** An engine that answers from a script, one reply per call; when the
    script is used up every call succeeds. *)
Definition scripted : Engine :=
  {| eng_state := list Reply;
     native := fun _ script =>
       match script with
       | r :: rest => (r, rest)
       | [] => (reply SQLITE_OK 0, [])
       end;
     sqlite3_errstr := errstr |}.

Definition start (script : list Reply) : World scripted :=
  Build_World scripted script [] 0.

(** An engine positioned on one row of text columns, [None] for a column
    that holds SQL NULL. *)
Definition SQLITE_TEXT : Z := 3.

Definition one_row : Engine :=
  {| eng_state := list (option string);
     native := fun c row =>
       match c with
       | sqlite3_column_type _ column =>
           match nth_error row (Z.to_nat column) with
           | Some (Some _) => (reply SQLITE_TEXT 0, row)
           | _ => (reply SQLITE_NULL 0, row)
           end
       | sqlite3_column_text _ column =>
           match nth_error row (Z.to_nat column) with
           | Some (Some text) =>
               ({| ret_val := 0; out_handle := 0; ret_text := Some text |}, row)
           | _ => (reply 0 0, row)
           end
       | sqlite3_step _ => (reply SQLITE_ROW 0, row)
       | _ => (reply SQLITE_OK 0, row)
       end;
     sqlite3_errstr := errstr |}.

Definition on_row (row : list (option string)) : World one_row :=
  Build_World one_row row [] 0.

(** A statement of [INT_MAX] characters. *)
Definition long_sql : string := replicate (Z.to_nat INT_MAX) "a"%char.

(** A text with a null character inside. *)
Definition text_with_nul : string :=
  String "a"%char (String NUL (String "b"%char EmptyString)).

(** A statement positioned on a row. *)
Definition sample_statement : Statement :=
  {| m_id := 1; m_stmt := 11; m_state := HasRow |}.

(** Three successful prepares, with handles 11, 12 and 13, and a step that
    is done. *)
Definition create_script : list Reply :=
  [reply SQLITE_OK 11; reply SQLITE_OK 12; reply SQLITE_OK 13;
   reply SQLITE_DONE 0].

(** A savepoint in progress, as [Savepoint::Create] leaves it on an engine
    that hands out the statement handles 11, 12 and 13. *)
Definition sample_savepoint : Savepoint :=
  {| m_name := "s1"; m_inProgress := true;
     m_rollback := {| m_id := 2; m_stmt := 12; m_state := Prepared |};
     m_commit := {| m_id := 3; m_stmt := 13; m_state := Prepared |} |}.

(** The contract of the engine's column accessors that [GetColumn] relies
    on: once [sqlite3_column_type] has answered, [sqlite3_column_text] on
    the same column returns the null pointer exactly when the type was
    [SQLITE_NULL]. *)
Definition column_text_contract (E : Engine) : Prop :=
  forall (d : eng_state E) (stmt column : Z),
    let '(ty, d') := native E (sqlite3_column_type stmt column) d in
    ret_val ty = SQLITE_NULL <->
    ret_text (fst (native E (sqlite3_column_text stmt column) d')) = None.




(** A view of two characters over memory that goes on without a null
    character after them. *)
Definition unterminated_view : string_view :=
  {| sv_data := "abc"; sv_size := 2 |}.

(* ================================================================= *)
(** ** Statement::Step *)

Lemma call_run (E : Engine) (c : Call) (w : World E) :
  call E c w = (Normal (answer c w), after_call c w).
Proof.
  unfold call, answer, after_call.
  destruct (native E c (db w)) as [r d']. reflexivity.
Qed.

(** [Step] unfolded on the engine's answer. *)
Lemma Statement_Step_run (E : Engine) (failFastOnError : bool)
    (this : Statement) (w : World E) :
  Statement_Step E failFastOnError (this, w) =
    let c := sqlite3_step (m_stmt this) in
    let result := ret_val (answer c w) in
    if result =? SQLITE_ROW then
      (Normal true, (set_m_state HasRow this, after_call c w))
    else if result =? SQLITE_DONE then
      (Normal false, (set_m_state Completed this, after_call c w))
    else
      (if failFastOnError
       then FailFast "Critical SQL statement failed"
       else Throw (SQLiteException result (sqlite3_errstr E result)),
       (set_m_state Error this, after_call c w)).
Proof.
  unfold Statement_Step.
  unfold bind at 1. unfold on_this at 1, get, zoom. cbn [fst snd].
  unfold bind at 1. unfold in_world at 1, zoom. cbn [fst snd].
  rewrite call_run. cbn zeta.
  destruct (ret_val (answer (sqlite3_step (m_stmt this)) w) =? SQLITE_ROW).
  - reflexivity.
  - destruct (ret_val (answer (sqlite3_step (m_stmt this)) w) =? SQLITE_DONE).
    + reflexivity.
    + destruct failFastOnError; reflexivity.
Qed.

(** C3. [Step(failFastOnError)] makes one [sqlite3_step] call on the
    statement's handle.  It returns true exactly when the engine reports
    [SQLITE_ROW], and the state is then [HasRow]; it returns false exactly
    when the engine reports [SQLITE_DONE], and the state is then
    [Completed]; for every other status the state becomes [Error] and the
    call ends in a fail-fast when [failFastOnError] is set and in a thrown
    [SQLiteException] carrying that status otherwise. *)
Theorem Statement_Step_spec (E : Engine) (failFastOnError : bool)
    (this : Statement) (w : World E) :
  let result := ret_val (answer (sqlite3_step (m_stmt this)) w) in
  let out := fst (Statement_Step E failFastOnError (this, w)) in
  let this' := fst (snd (Statement_Step E failFastOnError (this, w))) in
  let w' := snd (snd (Statement_Step E failFastOnError (this, w))) in
  w' = after_call (sqlite3_step (m_stmt this)) w /\
  m_stmt this' = m_stmt this /\ m_id this' = m_id this /\
  (out = Normal true <-> result = SQLITE_ROW) /\
  (out = Normal true -> m_state this' = HasRow) /\
  (out = Normal false <-> result = SQLITE_DONE) /\
  (out = Normal false -> m_state this' = Completed) /\
  (result <> SQLITE_ROW -> result <> SQLITE_DONE ->
     m_state this' = Error /\
     out = if failFastOnError
           then FailFast "Critical SQL statement failed"
           else Throw (SQLiteException result (sqlite3_errstr E result))).
Proof.
  cbv zeta. rewrite Statement_Step_run. cbv zeta.
  set (result := ret_val (answer (sqlite3_step (m_stmt this)) w)).
  destruct (Z.eqb_spec result SQLITE_ROW) as [Hrow | Hrow].
  - cbn [fst snd]. repeat split; try reflexivity; try congruence; auto.
    + intros H. rewrite Hrow in H. discriminate H.
  - destruct (Z.eqb_spec result SQLITE_DONE) as [Hdone | Hdone].
    + cbn [fst snd]. repeat split; try reflexivity; try congruence; auto.
    + cbn [fst snd].
      repeat split; try reflexivity; try congruence; auto;
        destruct failFastOnError; intros; try discriminate; try contradiction.
Qed.

(* ================================================================= *)
(** ** Savepoint: Commit, Rollback and the destructor *)

(** [Commit] and [Rollback] unfolded: nothing on a terminal savepoint, one
    fail-fast [Step] of the operation's statement otherwise. *)
Lemma run_op_run (E : Engine) (o : Op) (this : Savepoint) (w : World E) :
  run_op E o (this, w) =
    if m_inProgress this then
      let st := op_statement o this in
      let c := sqlite3_step (m_stmt st) in
      let result := ret_val (answer c w) in
      if result =? SQLITE_ROW then
        (Normal tt,
         (set_m_inProgress false (set_op_statement o (set_m_state HasRow st) this),
          after_call c w))
      else if result =? SQLITE_DONE then
        (Normal tt,
         (set_m_inProgress false
            (set_op_statement o (set_m_state Completed st) this),
          after_call c w))
      else
        (FailFast "Critical SQL statement failed",
         (set_op_statement o (set_m_state Error st) this, after_call c w))
    else (Normal tt, (this, w)).
Proof.
  destruct o; cbn [run_op op_statement set_op_statement];
    unfold Savepoint_Commit, Savepoint_Rollback;
    unfold bind at 1; unfold on_this at 1, get, zoom; cbn [fst snd];
    (destruct (m_inProgress this); [| reflexivity]);
    unfold bind at 1; unfold on_member, zoom; cbn [fst snd];
    rewrite Statement_Step_run; cbv zeta;
    match goal with
    | |- context [ret_val ?r =? SQLITE_ROW] =>
        destruct (ret_val r =? SQLITE_ROW); [reflexivity |];
        destruct (ret_val r =? SQLITE_DONE); reflexivity
    end.
Qed.

Lemma Savepoint_dtor_run (E : Engine) (s : Savepoint * World E) :
  Savepoint_dtor E s = run_op E OpRollback s.
Proof. reflexivity. Qed.

(** A terminal savepoint ignores every sequence of operations. *)
Lemma run_ops_terminal (E : Engine) (ops : list Op) (this : Savepoint)
    (w : World E) :
  m_inProgress this = false ->
  run_ops E ops (this, w) = (Normal tt, (this, w)).
Proof.
  intros Hterm. induction ops as [| o rest IH].
  - reflexivity.
  - cbn [run_ops]. unfold bind. rewrite run_op_run, Hterm. exact IH.
Qed.

(** C1. A savepoint that is still in progress is rolled back by its
    destructor: the destructor makes exactly one native call, the step of
    the ROLLBACK TO statement, and then either returns with the in-progress
    flag cleared or, when that step fails, ends the process.  The same
    holds at the end of the owning scope, whether the body returned or
    threw: the body's result or exception leaves the scope with the
    savepoint no longer in progress. *)
Theorem Savepoint_dtor_rolls_back (E : Engine) (this : Savepoint)
    (w : World E) (Hopen : m_inProgress this = true) :
  let c := sqlite3_step (m_stmt (m_rollback this)) in
  let out := fst (Savepoint_dtor E (this, w)) in
  let this' := fst (snd (Savepoint_dtor E (this, w))) in
  let w' := snd (snd (Savepoint_dtor E (this, w))) in
  w' = after_call c w /\
  (if step_ok (ret_val (answer c w))
   then out = Normal tt /\ m_inProgress this' = false
   else out = FailFast "Critical SQL statement failed") /\
  (forall (A : Type) (body : M (Savepoint * World E) A)
          (s0 : Savepoint * World E) (r : Outcome A),
     body s0 = (r, (this, w)) ->
     (exists a, r = Normal a) \/ (exists e, r = Throw e) ->
     snd (scope_exit E body s0) = (this', w') /\
     fst (scope_exit E body s0) =
       if step_ok (ret_val (answer c w)) then r
       else FailFast "Critical SQL statement failed").
Proof.
  cbv zeta. rewrite Savepoint_dtor_run, run_op_run, Hopen.
  cbn [op_statement set_op_statement]. cbv zeta.
  set (c := sqlite3_step (m_stmt (m_rollback this))).
  assert (Hscope :
    forall (A : Type) (body : M (Savepoint * World E) A)
           (s0 : Savepoint * World E) (r : Outcome A),
      body s0 = (r, (this, w)) ->
      (exists a, r = Normal a) \/ (exists e, r = Throw e) ->
      scope_exit E body s0 =
        (match fst (run_op E OpRollback (this, w)) with
         | Normal _ => r
         | Throw e => Throw e
         | FailFast msg => FailFast msg
         | Undefined => Undefined
         end, snd (run_op E OpRollback (this, w)))).
  { intros A body s0 r Hbody [[a Hr] | [e Hr]]; subst r;
      unfold scope_exit; rewrite Hbody; unfold bind;
      rewrite Savepoint_dtor_run;
      destruct (run_op E OpRollback (this, w)) as [[u | e' | msg |] s'];
      reflexivity. }
  assert (Hrun := run_op_run E OpRollback this w).
  rewrite Hopen in Hrun. cbn [op_statement set_op_statement] in Hrun.
  cbv zeta in Hrun. fold c in Hrun.
  unfold step_ok.
  destruct (ret_val (answer c w) =? SQLITE_ROW) eqn:Hrow;
    [| destruct (ret_val (answer c w) =? SQLITE_DONE) eqn:Hdone];
    cbn [fst snd orb];
    (split; [reflexivity | split; [try split; reflexivity |]]);
    intros A body s0 r Hbody Hr;
    rewrite (Hscope A body s0 r Hbody Hr), Hrun;
    split; reflexivity.
Qed.

Lemma Savepoint_dtor_rolls_back_witness :
  m_inProgress sample_savepoint = true /\
  snd (snd (Savepoint_dtor scripted
              (sample_savepoint, start [reply SQLITE_DONE 0]))) =
    after_call (sqlite3_step 12) (start [reply SQLITE_DONE 0]).
Proof.
  split.
  - reflexivity.
  - exact (proj1 (Savepoint_dtor_rolls_back scripted sample_savepoint
                    (start [reply SQLITE_DONE 0]) eq_refl)).
Defined.

(** One operation on a savepoint in progress: one step, then terminal. *)
Lemma run_op_in_progress (E : Engine) (o : Op) (this : Savepoint)
    (w : World E) :
  m_inProgress this = true ->
  let c := sqlite3_step (m_stmt (op_statement o this)) in
  snd (snd (run_op E o (this, w))) = after_call c w /\
  (if step_ok (ret_val (answer c w))
   then fst (run_op E o (this, w)) = Normal tt /\
        m_inProgress (fst (snd (run_op E o (this, w)))) = false
   else fst (run_op E o (this, w)) = FailFast "Critical SQL statement failed").
Proof.
  intros Hopen. cbv zeta. rewrite run_op_run, Hopen. cbv zeta. unfold step_ok.
  destruct (ret_val (answer (sqlite3_step (m_stmt (op_statement o this))) w)
              =? SQLITE_ROW);
    [| destruct (ret_val (answer (sqlite3_step (m_stmt (op_statement o this))) w)
                   =? SQLITE_DONE)];
    cbn [fst snd orb]; destruct o; repeat split.
Qed.

(** The native calls a sequence of operations adds to the trace. *)
Lemma run_ops_trace (E : Engine) (ops : list Op) (this : Savepoint)
    (w : World E) :
  exists added : list Call,
    trace (snd (snd (run_ops E ops (this, w)))) = trace w ++ added /\
    (List.length added <= 1)%nat /\
    (forall c, In c added ->
       m_inProgress this = true /\
       (c = sqlite3_step (m_stmt (m_rollback this)) \/
        c = sqlite3_step (m_stmt (m_commit this)))).
Proof.
  destruct ops as [| o rest].
  - exists []. cbn. rewrite app_nil_r. repeat split; auto. contradiction.
  - destruct (m_inProgress this) eqn:Hopen.
    + destruct (run_op_in_progress E o this w Hopen) as [Hw Hout].
      exists [sqlite3_step (m_stmt (op_statement o this))].
      split; [| split].
      * cbn [run_ops]. unfold bind.
        destruct (run_op E o (this, w)) as [[u | e | msg |] [this' w']] eqn:Hop;
          cbn [fst snd] in Hw, Hout; try (rewrite Hw; reflexivity).
        destruct (step_ok _); [| discriminate Hout].
        destruct Hout as [_ Hterm].
        rewrite (run_ops_terminal E rest this' w' Hterm). cbn [snd].
        rewrite Hw. reflexivity.
      * cbn. lia.
      * intros c [Hc | []]. subst c. split; [reflexivity |].
        destruct o; cbn [op_statement]; auto.
    + exists []. rewrite (run_ops_terminal E (o :: rest) this w Hopen).
      cbn. rewrite app_nil_r. repeat split; auto. contradiction.
Qed.

Lemma run_ops_no_throw (E : Engine) (ops : list Op) (this : Savepoint)
    (w : World E) :
  fst (run_ops E ops (this, w)) = Normal tt \/
  fst (run_ops E ops (this, w)) = FailFast "Critical SQL statement failed".
Proof.
  revert this w. induction ops as [| o rest IH]; intros this w.
  - left. reflexivity.
  - cbn [run_ops]. unfold bind. rewrite run_op_run.
    destruct (m_inProgress this); cbv zeta;
      repeat match goal with
             | |- context [if ?b then _ else _] => destruct b
             end; auto.
Qed.

(** C2. [Commit] and [Rollback] are idempotent and mutually exclusive.  On
    a savepoint that is no longer in progress either operation changes
    nothing, makes no native call and returns.  On a savepoint in progress
    the operation steps its own statement once and, when it returns, the
    savepoint is no longer in progress.  So whatever sequence of the two
    operations is run, at most one native call is made, it is the step of
    the rollback or of the commit statement, and no exception is raised. *)
Theorem Savepoint_Commit_Rollback_once (E : Engine) (this : Savepoint)
    (w : World E) :
  (forall o : Op,
     if m_inProgress this
     then snd (snd (run_op E o (this, w))) =
            after_call (sqlite3_step (m_stmt (op_statement o this))) w /\
          (fst (run_op E o (this, w)) = Normal tt ->
           m_inProgress (fst (snd (run_op E o (this, w)))) = false)
     else run_op E o (this, w) = (Normal tt, (this, w))) /\
  (forall ops : list Op,
     (exists added : list Call,
        trace (snd (snd (run_ops E ops (this, w)))) = trace w ++ added /\
        (List.length added <= 1)%nat /\
        (forall c, In c added ->
           m_inProgress this = true /\
           (c = sqlite3_step (m_stmt (m_rollback this)) \/
            c = sqlite3_step (m_stmt (m_commit this))))) /\
     (forall e, fst (run_ops E ops (this, w)) <> Throw e) /\
     fst (run_ops E ops (this, w)) <> Undefined) /\
  (forall (o1 o2 : Op),
     fst (run_op E o1 (this, w)) = Normal tt ->
     run_op E o2 (snd (run_op E o1 (this, w))) =
       (Normal tt, snd (run_op E o1 (this, w)))).
Proof.
  split; [| split].
  - intros o. destruct (m_inProgress this) eqn:Hopen.
    + destruct (run_op_in_progress E o this w Hopen) as [Hw Hout].
      split; [exact Hw |]. intros Hret.
      destruct (step_ok _); [apply Hout | congruence].
    + rewrite run_op_run, Hopen. reflexivity.
  - intros ops. split; [apply run_ops_trace |].
    destruct (run_ops_no_throw E ops this w) as [H | H]; rewrite H;
      split; try intros e; discriminate.
  - intros o1 o2 Hret.
    assert (Hterm : m_inProgress (fst (snd (run_op E o1 (this, w)))) = false).
    { destruct (m_inProgress this) eqn:Hopen.
      - destruct (run_op_in_progress E o1 this w Hopen) as [_ Hout].
        destruct (step_ok _); [apply Hout | congruence].
      - rewrite run_op_run, Hopen. exact Hopen. }
    destruct (run_op E o1 (this, w)) as [out [this' w']]. cbn [fst snd] in *.
    rewrite run_op_run, Hterm. reflexivity.
Qed.

(** C4. [Rollback] and [Commit] step their statements in fail-fast mode:
    each of them, and the destructor, ends in the fail-fast exactly when the
    savepoint is in progress and the step reports a status other than row or
    done, and returns otherwise; none of them ever throws.  The same step
    without [failFastOnError] would throw the [SQLiteException]. *)
Theorem Savepoint_fail_fast (E : Engine) (this : Savepoint) (w : World E)
    (o : Op) :
  let result :=
    ret_val (answer (sqlite3_step (m_stmt (op_statement o this))) w) in
  let rollback_result :=
    ret_val (answer (sqlite3_step (m_stmt (m_rollback this))) w) in
  fst (run_op E o (this, w)) =
    (if m_inProgress this && negb (step_ok result)
     then FailFast "Critical SQL statement failed" else Normal tt) /\
  fst (Savepoint_dtor E (this, w)) =
    (if m_inProgress this && negb (step_ok rollback_result)
     then FailFast "Critical SQL statement failed" else Normal tt) /\
  (forall e, fst (run_op E o (this, w)) <> Throw e) /\
  (forall e, fst (Savepoint_dtor E (this, w)) <> Throw e) /\
  fst (Statement_Step E true (op_statement o this, w)) =
    (if step_ok result then Normal (result =? SQLITE_ROW)
     else FailFast "Critical SQL statement failed") /\
  fst (Statement_Step E false (op_statement o this, w)) =
    (if step_ok result then Normal (result =? SQLITE_ROW)
     else Throw (SQLiteException result (sqlite3_errstr E result))).
Proof.
  cbv zeta.
  assert (Hop : forall o' : Op,
    fst (run_op E o' (this, w)) =
      (if m_inProgress this &&
          negb (step_ok (ret_val
                  (answer (sqlite3_step (m_stmt (op_statement o' this))) w)))
       then FailFast "Critical SQL statement failed" else Normal tt)).
  { intros o'. rewrite run_op_run. unfold step_ok. cbv zeta.
    destruct (m_inProgress this); [| reflexivity].
    destruct (_ =? SQLITE_ROW); [reflexivity |].
    destruct (_ =? SQLITE_DONE); reflexivity. }
  assert (Hno : forall (o' : Op) e, fst (run_op E o' (this, w)) <> Throw e).
  { intros o' e. rewrite Hop.
    destruct (m_inProgress this && _); discriminate. }
  rewrite Savepoint_dtor_run.
  split; [apply Hop |].
  split; [apply (Hop OpRollback) |].
  split; [apply Hno |].
  split; [apply (Hno OpRollback) |].
  rewrite !Statement_Step_run. cbv zeta. unfold step_ok.
  destruct (Z.eqb_spec
              (ret_val (answer (sqlite3_step (m_stmt (op_statement o this))) w))
              SQLITE_ROW) as [Hrow | Hrow].
  - split; reflexivity.
  - destruct (_ =? SQLITE_DONE); split; reflexivity.
Qed.

(* ================================================================= *)
(** ** Typed parameter binding of text *)

Lemma THROW_IF_SQLITE_FAILED_call (E : Engine) (c : Call) (w : World E) :
  THROW_IF_SQLITE_FAILED E (call E c) w =
    (if ret_val (answer c w) =? SQLITE_OK then Normal (answer c w)
     else Throw (SQLiteException (ret_val (answer c w))
                   (sqlite3_errstr E (ret_val (answer c w)))),
     after_call c w).
Proof.
  unfold THROW_IF_SQLITE_FAILED, bind. rewrite call_run.
  destruct (ret_val (answer c w) =? SQLITE_OK); reflexivity.
Qed.

Lemma substring_prefix (s t : string) :
  substring 0 (String.length s) (s ++ t) = s.
Proof.
  induction s as [| c s IH]; cbn.
  - destruct t; reflexivity.
  - rewrite IH. reflexivity.
Qed.

Lemma checked_throws {A : Type} (E : Engine) (c : Call) (w : World E) (a : A) :
  (exists e, checked E c w a = Throw e) <-> ret_val (answer c w) <> SQLITE_OK.
Proof.
  unfold checked.
  destruct (Z.eqb_spec (ret_val (answer c w)) SQLITE_OK) as [Hok | Hok].
  - split; [intros [e He]; discriminate He | intros H; contradiction].
  - split; [intros _; exact Hok | intros _; eexists; reflexivity].
Qed.

(** C6. Binding a text value, owned or borrowed, makes one
    [sqlite3_bind_text64] call with the value's characters, its size as the
    byte length, [SQLITE_TRANSIENT] and [SQLITE_UTF8]; it throws, the
    [SQLiteException] holding the native status and the engine's error
    string for it, exactly when that call returns a status other than
    [SQLITE_OK], and returns otherwise. *)
Theorem Bind_text_spec (E : Engine) (stmt index : Z) (v : string)
    (view : string_view) (w : World E) :
  let c := sqlite3_bind_text64 stmt index (c_str v) (Z.of_nat (size v))
             SQLITE_TRANSIENT SQLITE_UTF8 in
  let cv := sqlite3_bind_text64 stmt index (sv_data view)
              (Z.of_nat (sv_size view)) SQLITE_TRANSIENT SQLITE_UTF8 in
  Bind_string E stmt index v w = (checked E c w tt, after_call c w) /\
  substring 0 (size v) (c_str v) = v /\
  ((exists e, fst (Bind_string E stmt index v w) = Throw e) <->
   ret_val (answer c w) <> SQLITE_OK) /\
  Bind_string_view E stmt index view w = (checked E cv w tt, after_call cv w) /\
  ((exists e, fst (Bind_string_view E stmt index view w) = Throw e) <->
   ret_val (answer cv w) <> SQLITE_OK).
Proof.
  cbv zeta.
  assert (Hs : forall c, (THROW_IF_SQLITE_FAILED E (call E c) ;;; ret tt) w =
                         (checked E c w tt, after_call c w)).
  { intros c. unfold bind at 1. rewrite THROW_IF_SQLITE_FAILED_call.
    unfold checked. destruct (ret_val (answer c w) =? SQLITE_OK); reflexivity. }
  unfold Bind_string, Bind_string_view. rewrite !Hs. cbn [fst].
  split; [reflexivity |].
  split; [apply substring_prefix |].
  split; [apply checked_throws |].
  split; [reflexivity | apply checked_throws].
Qed.

(* ================================================================= *)
(** ** Connection::Create *)

(** C7. [Connection::Create] first calls [sqlite3_open_v2] with the
    bitwise-or of disposition and flags, whatever the two values are.
    When that call fails the [SQLiteException] with its status is thrown
    and nothing else is called; otherwise extended result codes are enabled
    on the handle the open call produced, and the connection is returned
    when that succeeds and the [SQLiteException] with its status thrown
    when it does not. *)
Theorem Connection_Create_spec (E : Engine) (target : string)
    (disposition flags : Z) (w : World E) :
  let o := sqlite3_open_v2 (c_str target) (Z.lor disposition flags) in
  let x := sqlite3_extended_result_codes (out_handle (answer o w)) 1 in
  let w1 := after_call o w in
  let result := {| m_dbconn := out_handle (answer o w) |} in
  Connection_Create E target disposition flags w =
    (if ret_val (answer o w) =? SQLITE_OK
     then (checked E x w1 result, after_call x w1)
     else (checked E o w result, w1)) /\
  ((exists e, fst (Connection_Create E target disposition flags w) = Throw e)
   <-> ret_val (answer o w) <> SQLITE_OK \/
       (ret_val (answer o w) = SQLITE_OK /\ ret_val (answer x w1) <> SQLITE_OK)) /\
  (fst (Connection_Create E target disposition flags w) = Normal result
   <-> ret_val (answer o w) = SQLITE_OK /\ ret_val (answer x w1) = SQLITE_OK).
Proof.
  cbv zeta.
  set (o := sqlite3_open_v2 (c_str target) (Z.lor disposition flags)).
  set (x := sqlite3_extended_result_codes (out_handle (answer o w)) 1).
  assert (Hrun :
    Connection_Create E target disposition flags w =
      (if ret_val (answer o w) =? SQLITE_OK
       then (checked E x (after_call o w) {| m_dbconn := out_handle (answer o w) |},
             after_call x (after_call o w))
       else (checked E o w {| m_dbconn := out_handle (answer o w) |},
             after_call o w))).
  { unfold Connection_Create, Connection_ctor.
    unfold bind at 1. unfold bind at 1.
    rewrite THROW_IF_SQLITE_FAILED_call. fold o. unfold checked.
    destruct (ret_val (answer o w) =? SQLITE_OK); [| reflexivity].
    unfold ret at 1. unfold bind at 1. cbn [m_dbconn].
    rewrite THROW_IF_SQLITE_FAILED_call. fold x.
    destruct (ret_val (answer x (after_call o w)) =? SQLITE_OK); reflexivity. }
  rewrite Hrun. split; [reflexivity |].
  unfold checked.
  destruct (Z.eqb_spec (ret_val (answer o w)) SQLITE_OK) as [Ho | Ho];
    [destruct (Z.eqb_spec (ret_val (answer x (after_call o w))) SQLITE_OK)
       as [Hx | Hx] |];
    cbn [fst]; split; split;
    try (intros [e He]; discriminate He);
    try (intros [H | [_ H]]; contradiction);
    try (intros [H1 H2]; contradiction);
    try (intros H; discriminate H);
    try (intros _; eexists; reflexivity);
    try (intros _; auto; fail).
Qed.

(* ================================================================= *)
(** ** Statement::Create: the buffer given to the engine *)

Lemma get_c_str (s : string) :
  String.get (String.length s) (c_str s) = Some NUL.
Proof.
  unfold c_str. induction s as [| c s IH]; cbn.
  - reflexivity.
  - exact IH.
Qed.

Lemma strlen_get (mem : string) (n : nat) :
  strlen mem = Some n -> String.get n mem = Some NUL.
Proof.
  revert n. induction mem as [| c mem IH]; intros n H; cbn in H.
  - discriminate H.
  - destruct (Ascii.eqb_spec c NUL) as [Hc | Hc].
    + injection H as <-. cbn. rewrite Hc. reflexivity.
    + destruct (strlen mem) as [k |]; [| discriminate H].
      injection H as <-. cbn. apply IH. reflexivity.
Qed.

Lemma strlen_c_str (s : string) : strlen (c_str s) = Some (String.length (until_NUL s)).
Proof.
  unfold c_str. induction s as [| c s IH]; cbn.
  - reflexivity.
  - destruct (Ascii.eqb c NUL); [reflexivity |].
    rewrite IH. reflexivity.
Qed.

Lemma length_substring (n : nat) (s : string) :
  (n <= String.length s)%nat -> String.length (substring 0 n s) = n.
Proof.
  revert n. induction s as [| c s IH]; intros n Hn; cbn in Hn.
  - assert (n = O) by lia. subst n. reflexivity.
  - destruct n as [| n]; [reflexivity |].
    cbn. rewrite IH; [reflexivity | lia].
Qed.

Lemma length_replicate (n : nat) (c : ascii) :
  String.length (replicate n c) = n.
Proof. induction n as [| n IH]; cbn; [reflexivity | rewrite IH; reflexivity]. Qed.

Lemma static_cast_int_in_range (z : Z) :
  - 2 ^ 31 <= z <= INT_MAX -> static_cast_int z = z.
Proof.
  unfold static_cast_int, INT_MAX. intros H.
  rewrite Z.mod_small; lia.
Qed.

Lemma nByte_in_range (n : nat) :
  Z.of_nat n < INT_MAX ->
  static_cast_int (size_t (Z.of_nat n + 1)) = Z.of_nat n + 1.
Proof.
  unfold INT_MAX. intros H. unfold size_t.
  rewrite Z.mod_small by lia.
  apply static_cast_int_in_range. unfold INT_MAX. lia.
Qed.

Lemma Statement_assertion_true (buf : string) (n : nat) :
  String.get n buf = Some NUL ->
  Statement_assertion {| sv_data := buf; sv_size := n |} = Some true.
Proof.
  unfold Statement_assertion. cbn [sv_data sv_size]. intros ->.
  rewrite Ascii.eqb_refl. reflexivity.
Qed.

(** The constructor on a view whose assertion holds. *)
Lemma Statement_ctor_run (E : Engine) (connection : Connection)
    (sql : string_view) (persistent : bool) (w : World E) :
  Statement_assertion sql = Some true ->
  Statement_ctor E connection sql persistent w =
    prepares E connection (sv_data sql) (Statement_nByte sql) persistent w.
Proof.
  intros Hassert. unfold Statement_ctor, prepares.
  unfold bind at 1. unfold GetNextStatementId. fold (next_id w).
  rewrite Hassert. unfold bind at 1.
  rewrite THROW_IF_SQLITE_FAILED_call. unfold checked. cbv zeta.
  destruct (ret_val _ =? SQLITE_OK); reflexivity.
Qed.

Lemma Statement_Create_string_run (E : Engine) (connection : Connection)
    (sql : string) (persistent : bool) (w : World E) :
  Statement_Create_string E connection sql persistent w =
    prepares E connection (c_str sql)
      (static_cast_int (size_t (Z.of_nat (size sql) + 1))) persistent w.
Proof.
  unfold Statement_Create_string.
  rewrite Statement_ctor_run.
  - reflexivity.
  - apply Statement_assertion_true. apply get_c_str.
Qed.

Lemma Statement_Create_string_call (E : Engine) (connection : Connection)
    (sql : string) (persistent : bool) (w : World E) :
  let c := prepare_of connection sql persistent in
  Statement_Create_string E connection sql persistent w =
    (checked E c (next_id w)
       {| m_id := statementId (next_id w);
          m_stmt := out_handle (answer c (next_id w)); m_state := Prepared |},
     after_call c (next_id w)).
Proof. exact (Statement_Create_string_run E connection sql persistent w). Qed.

Lemma Statement_Create_string_terminated (E : Engine) (connection : Connection)
    (sql : string) (persistent : bool) (w : World E) :
  null_terminated_prepare E connection persistent w
    (Statement_Create_string E connection sql persistent w)
    (c_str sql) (size sql).
Proof.
  unfold null_terminated_prepare. split; [| split].
  - apply Statement_assertion_true. apply get_c_str.
  - apply get_c_str.
  - apply Statement_Create_string_run.
Qed.

(** C8 (amended). Every overload of [Statement::Create] hands
    [sqlite3_prepare_v3] a buffer whose character at position [size()] is
    the null character, so the constructor's assertion holds: the
    [std::string] overload passes the string's own buffer, the
    [std::string_view] overload passes the buffer of an owned copy of the
    viewed characters and never the view's memory, and the literal overload
    passes the literal up to its terminator.  The byte count passed is
    [static_cast<int>(size() + 1)], which is [size() + 1] whenever
    [size() + 1] does not exceed [INT_MAX]. *)
Theorem Statement_Create_null_terminated (E : Engine) (connection : Connection)
    (persistent : bool) (w : World E) (sql : string) (view : string_view)
    (literal : string) :
  null_terminated_prepare E connection persistent w
    (Statement_Create_string E connection sql persistent w)
    (c_str sql) (size sql) /\
  match string_of_view view with
  | Some copy =>
      copy = substring 0 (sv_size view) (sv_data view) /\
      size copy = sv_size view /\
      null_terminated_prepare E connection persistent w
        (Statement_Create_string_view E connection view persistent w)
        (c_str copy) (sv_size view)
  | None =>
      (String.length (sv_data view) < sv_size view)%nat /\
      Statement_Create_string_view E connection view persistent w = (Undefined, w)
  end /\
  null_terminated_prepare E connection persistent w
    (Statement_Create_cstr E connection (c_str literal) persistent w)
    (c_str literal) (size (until_NUL literal)) /\
  (forall n : nat,
     Z.of_nat n + 1 <= INT_MAX ->
     static_cast_int (size_t (Z.of_nat n + 1)) = Z.of_nat n + 1).
Proof.
  split; [apply Statement_Create_string_terminated |].
  split; [| split].
  - unfold Statement_Create_string_view, string_of_view.
    destruct (Nat.leb_spec (sv_size view) (String.length (sv_data view)))
      as [Hle | Hgt].
    + split; [reflexivity |].
      assert (Hlen : size (substring 0 (sv_size view) (sv_data view))
                     = sv_size view)
        by (apply length_substring; exact Hle).
      split; [exact Hlen |].
      pose proof (Statement_Create_string_terminated E connection
                    (substring 0 (sv_size view) (sv_data view)) persistent w)
        as Hcopy.
      rewrite Hlen in Hcopy. exact Hcopy.
    + split; [exact Hgt | reflexivity].
  - assert (Hget : String.get (size (until_NUL literal)) (c_str literal)
                   = Some NUL)
      by (apply strlen_get; apply strlen_c_str).
    unfold null_terminated_prepare. split; [| split].
    + apply Statement_assertion_true. exact Hget.
    + exact Hget.
    + unfold Statement_Create_cstr, view_of_cstr. rewrite strlen_c_str.
      rewrite Statement_ctor_run.
      * reflexivity.
      * apply Statement_assertion_true. exact Hget.
  - intros n Hn. apply nByte_in_range. lia.
Qed.

(** C8 as stated fails on a statement of [INT_MAX] characters: the byte
    count that reaches [sqlite3_prepare_v3] is [INT_MIN], not
    [size() + 1]. *)
Lemma Statement_Create_length_wraps :
  trace (snd (Statement_Create_string scripted {| m_dbconn := 1 |} long_sql
                false (start []))) =
    [sqlite3_prepare_v3 1 (c_str long_sql) (-2147483648) 0] /\
  -2147483648 <> Z.of_nat (size long_sql) + 1.
Proof.
  assert (Hsize : Z.of_nat (size long_sql) = INT_MAX).
  { unfold size, long_sql. rewrite length_replicate.
    apply Z2Nat.id. unfold INT_MAX. lia. }
  split.
  - rewrite Statement_Create_string_run. unfold prepares. cbv zeta.
    cbn [snd]. unfold after_call. cbn [trace next_id start m_dbconn].
    rewrite Hsize. reflexivity.
  - rewrite Hsize. unfold INT_MAX. lia.
Qed.

(* ================================================================= *)
(** ** Savepoint::Create *)

Section Create.

Variable E : Engine.
Variable connection : Connection.
Variable name : string.
Variable w : World E.

Abbreviation a1 := (reply_begin E connection name w).
Abbreviation a2 := (reply_rollback E connection name w).
Abbreviation a3 := (reply_commit E connection name w).
Abbreviation a4 := (reply_step E connection name w).
Abbreviation w1 := (after_begin E connection name w).
Abbreviation w2 := (after_rollback E connection name w).
Abbreviation w3 := (after_commit E connection name w).
Abbreviation w4 := (after_step E connection name w).

(** The constructor unfolded on the engine's answers. *)
Lemma Savepoint_Create_run :
  Savepoint_Create E connection name w =
    if negb (ret_val a1 =? SQLITE_OK) then (Throw (sqlite_error E (ret_val a1)), w1)
    else if negb (ret_val a2 =? SQLITE_OK) then (Throw (sqlite_error E (ret_val a2)), w2)
    else if negb (ret_val a3 =? SQLITE_OK) then (Throw (sqlite_error E (ret_val a3)), w3)
    else if negb (step_ok (ret_val a4)) then (Throw (sqlite_error E (ret_val a4)), w4)
    else (Normal (created E connection name w), w4).
Proof.
  unfold Savepoint_Create, Savepoint_ctor, persistent_default,
    failFastOnError_default, m_inProgress_initial.
  unfold bind at 1. rewrite Statement_Create_string_call.
  unfold checked. cbv zeta.
  fold (prepare_begin connection name). fold a1 w1.
  destruct (ret_val a1 =? SQLITE_OK); cbn [negb]; [| reflexivity].
  unfold bind at 1. rewrite Statement_Create_string_call.
  unfold checked. cbv zeta.
  fold (prepare_rollback connection name). fold a2 w2.
  destruct (ret_val a2 =? SQLITE_OK); cbn [negb]; [| reflexivity].
  unfold bind at 1. rewrite Statement_Create_string_call.
  unfold checked. cbv zeta.
  fold (prepare_commit connection name). fold a3 w3.
  destruct (ret_val a3 =? SQLITE_OK); cbn [negb]; [| reflexivity].
  unfold bind at 1. unfold on_local. rewrite Statement_Step_run.
  cbv zeta. cbn [m_stmt]. fold (step_begin E connection name w). fold a4 w4.
  unfold step_ok.
  destruct (ret_val a4 =? SQLITE_ROW); [reflexivity |].
  destruct (ret_val a4 =? SQLITE_DONE); reflexivity.
Qed.

Lemma trace_after_call (c : Call) (v : World E) :
  trace (after_call c v) = trace v ++ [c].
Proof. reflexivity. Qed.

Lemma trace_next_id (v : World E) : trace (next_id v) = trace v.
Proof. reflexivity. Qed.

Lemma trace_after_step :
  trace w4 = trace w ++ [prepare_begin connection name;
                         prepare_rollback connection name;
                         prepare_commit connection name;
                         step_begin E connection name w].
Proof.
  unfold after_step, after_commit, after_rollback, after_begin.
  repeat (rewrite trace_after_call || rewrite trace_next_id).
  rewrite <- !app_assoc. reflexivity.
Qed.

(** C5. [Savepoint::Create] prepares [SAVEPOINT [name]],
    [ROLLBACK TO [name]] and [RELEASE [name]], the last two with
    [SQLITE_PREPARE_PERSISTENT], and steps the first; these are its only
    native calls, made in that order up to the first one that fails.  When
    all succeed the savepoint is returned, in progress, holding the
    rollback and commit statements in state [Prepared]; otherwise the
    [SQLiteException] of the first failing call is thrown, no savepoint
    exists, and neither the rollback nor the commit statement was stepped. *)
Theorem Savepoint_Create_spec :
  let out := fst (Savepoint_Create E connection name w) in
  let w' := snd (Savepoint_Create E connection name w) in
  let calls := [prepare_begin connection name;
                prepare_rollback connection name;
                prepare_commit connection name;
                step_begin E connection name w] in
  (exists n1 n2 n3 : Z,
     prepare_begin connection name =
       sqlite3_prepare_v3 (m_dbconn connection)
         (c_str ("SAVEPOINT [" ++ name ++ "]")) n1 0 /\
     prepare_rollback connection name =
       sqlite3_prepare_v3 (m_dbconn connection)
         (c_str ("ROLLBACK TO [" ++ name ++ "]")) n2 SQLITE_PREPARE_PERSISTENT /\
     prepare_commit connection name =
       sqlite3_prepare_v3 (m_dbconn connection)
         (c_str ("RELEASE [" ++ name ++ "]")) n3 SQLITE_PREPARE_PERSISTENT) /\
  out =
    (if negb (ret_val a1 =? SQLITE_OK) then Throw (sqlite_error E (ret_val a1))
     else if negb (ret_val a2 =? SQLITE_OK) then Throw (sqlite_error E (ret_val a2))
     else if negb (ret_val a3 =? SQLITE_OK) then Throw (sqlite_error E (ret_val a3))
     else if negb (step_ok (ret_val a4)) then Throw (sqlite_error E (ret_val a4))
     else Normal (created E connection name w)) /\
  (exists k : nat, (1 <= k <= 4)%nat /\ trace w' = trace w ++ firstn k calls) /\
  (if create_ok E connection name w
   then out = Normal (created E connection name w) /\
        trace w' = trace w ++ calls /\
        m_inProgress (created E connection name w) = true
   else exists error : Z, out = Throw (sqlite_error E error)).
Proof.
  cbv zeta. rewrite Savepoint_Create_run.
  split.
  { eexists. eexists. eexists. repeat split. }
  pose proof trace_after_step as H4.
  assert (H3 : trace w3 = trace w ++ [prepare_begin connection name;
                                     prepare_rollback connection name;
                                     prepare_commit connection name]).
  { unfold after_commit, after_rollback, after_begin.
    repeat (rewrite trace_after_call || rewrite trace_next_id).
    rewrite <- !app_assoc. reflexivity. }
  assert (H2 : trace w2 = trace w ++ [prepare_begin connection name;
                                     prepare_rollback connection name]).
  { unfold after_rollback, after_begin.
    repeat (rewrite trace_after_call || rewrite trace_next_id).
    rewrite <- !app_assoc. reflexivity. }
  assert (H1 : trace w1 = trace w ++ [prepare_begin connection name]).
  { reflexivity. }
  unfold create_ok.
  destruct (ret_val a1 =? SQLITE_OK) eqn:E1; cbn [negb andb fst snd].
  2:{ split; [reflexivity |]. split.
      - exists 1%nat. split; [lia | exact H1].
      - exists (ret_val a1). reflexivity. }
  destruct (ret_val a2 =? SQLITE_OK) eqn:E2; cbn [negb andb fst snd].
  2:{ split; [reflexivity |]. split.
      - exists 2%nat. split; [lia | exact H2].
      - exists (ret_val a2). reflexivity. }
  destruct (ret_val a3 =? SQLITE_OK) eqn:E3; cbn [negb andb fst snd].
  2:{ split; [reflexivity |]. split.
      - exists 3%nat. split; [lia | exact H3].
      - exists (ret_val a3). reflexivity. }
  destruct (step_ok (ret_val a4)) eqn:E4; cbn [negb andb fst snd].
  - split; [reflexivity |]. split.
    + exists 4%nat. split; [lia | exact H4].
    + split; [reflexivity |]. split; [exact H4 | reflexivity].
  - split; [reflexivity |]. split.
    + exists 4%nat. split; [lia | exact H4].
    + exists (ret_val a4). reflexivity.
Qed.

End Create.

(* ================================================================= *)
(** ** Reading a text column *)

Lemma substring_until_NUL (s t : string) :
  substring 0 (String.length (until_NUL s)) (s ++ t) = until_NUL s.
Proof.
  induction s as [| c s IH]; cbn.
  - destruct t; reflexivity.
  - destruct (Ascii.eqb c NUL); cbn; [reflexivity |].
    rewrite IH. reflexivity.
Qed.

Lemma string_of_cstr_c_str (text : string) :
  string_of_cstr (c_str text) = Some (until_NUL text).
Proof.
  unfold string_of_cstr. rewrite strlen_c_str.
  unfold c_str. rewrite substring_until_NUL. reflexivity.
Qed.

Lemma until_NUL_without_NUL (text : string) :
  (forall i : nat, String.get i text <> Some NUL) -> until_NUL text = text.
Proof.
  induction text as [| c text IH]; intros Hno; cbn.
  - reflexivity.
  - destruct (Ascii.eqb_spec c NUL) as [Hc | Hc].
    + exfalso. apply (Hno O). cbn. rewrite Hc. reflexivity.
    + rewrite IH; [reflexivity |].
      intros i. exact (Hno (S i)).
Qed.

Lemma GetColumn_string_run (E : Engine) (stmt column : Z) (w : World E) :
  let c := sqlite3_column_text stmt column in
  GetColumn_string E stmt column w =
    (match ret_text (answer c w) with
     | Some text => Normal (until_NUL text)
     | None => Undefined
     end, after_call c w).
Proof.
  cbv zeta. unfold GetColumn_string. unfold bind at 1. rewrite call_run.
  destruct (ret_text (answer (sqlite3_column_text stmt column) w)) as [text |].
  - rewrite string_of_cstr_c_str. reflexivity.
  - reflexivity.
Qed.

Lemma Statement_GetColumnIsNull_run (E : Engine) (column : Z)
    (this : Statement) (w : World E) :
  let c := sqlite3_column_type (m_stmt this) column in
  Statement_GetColumnIsNull E column (this, w) =
    (Normal (ret_val (answer c w) =? SQLITE_NULL), (this, after_call c w)).
Proof.
  cbv zeta. unfold Statement_GetColumnIsNull.
  unfold bind at 1. unfold on_this at 1, get, zoom. cbn [fst snd].
  unfold bind at 1. unfold in_world, zoom. cbn [fst snd].
  rewrite call_run. reflexivity.
Qed.

Lemma one_row_contract : column_text_contract one_row.
Proof.
  intros d stmt column. cbn.
  destruct (nth_error d (Z.to_nat column)) as [[text |] |] eqn:Hcol; cbn;
    rewrite Hcol; cbn; split; intros H; try reflexivity; discriminate H.
Qed.

(** C9 (amended). [GetColumnIsNull(i)] returns true exactly when the
    engine reports the storage class [SQLITE_NULL] for column [i].  On an
    engine whose text accessor returns the null pointer exactly for such a
    column: when [GetColumnIsNull(i)] has returned false,
    [GetColumn<std::string>(i)] returns the characters of the column's text
    that precede its first null character, which is the whole text when it
    holds none; when it has returned true, the text accessor yields the
    null pointer and the string construction is undefined. *)
Theorem GetColumn_string_spec (E : Engine) (Hcontract : column_text_contract E)
    (this : Statement) (column : Z) (w : World E) :
  let type := ret_val (answer (sqlite3_column_type (m_stmt this) column) w) in
  let isnull := Statement_GetColumnIsNull E column (this, w) in
  let got := Statement_GetColumn_string E column (snd isnull) in
  let pointer :=
    ret_text (answer (sqlite3_column_text (m_stmt this) column)
                (snd (snd isnull))) in
  (fst isnull = Normal true <-> type = SQLITE_NULL) /\
  (fst isnull = Normal false <-> type <> SQLITE_NULL) /\
  match pointer with
  | Some text =>
      fst isnull = Normal false /\
      fst got = Normal (until_NUL text) /\
      ((forall i : nat, String.get i text <> Some NUL) -> fst got = Normal text)
  | None => fst isnull = Normal true /\ fst got = Undefined
  end.
Proof.
  cbv zeta. rewrite Statement_GetColumnIsNull_run. cbv zeta. cbn [fst snd].
  set (ct := sqlite3_column_type (m_stmt this) column).
  assert (Hgot : Statement_GetColumn_string E column (this, after_call ct w) =
                 (match ret_text (answer (sqlite3_column_text (m_stmt this) column)
                                    (after_call ct w)) with
                  | Some text => Normal (until_NUL text)
                  | None => Undefined
                  end,
                  (this, after_call (sqlite3_column_text (m_stmt this) column)
                           (after_call ct w)))).
  { unfold Statement_GetColumn_string.
    unfold bind at 1. unfold on_this at 1, get, zoom. cbn [fst snd].
    unfold in_world, zoom. cbn [fst snd].
    rewrite GetColumn_string_run. reflexivity. }
  rewrite Hgot. cbn [fst].
  pose proof (Hcontract (db w) (m_stmt this) column) as Hc.
  fold ct in Hc.
  assert (Hc' : ret_val (answer ct w) = SQLITE_NULL <->
                ret_text (answer (sqlite3_column_text (m_stmt this) column)
                            (after_call ct w)) = None).
  { unfold answer, after_call. cbn [db].
    destruct (native E ct (db w)) as [ty d']. exact Hc. }
  clear Hc Hgot.
  destruct (ret_text (answer (sqlite3_column_text (m_stmt this) column)
                        (after_call ct w))) as [text |].
  - assert (Hnull : ret_val (answer ct w) <> SQLITE_NULL).
    { intros H. apply Hc' in H. discriminate H. }
    apply Z.eqb_neq in Hnull as Hb. rewrite Hb.
    split; [split; [intros H; discriminate H | intros H; contradiction] |].
    split; [split; auto |].
    split; [reflexivity |]. split; [reflexivity |].
    intros Hno. rewrite (until_NUL_without_NUL text Hno). reflexivity.
  - assert (Hnull : ret_val (answer ct w) = SQLITE_NULL)
      by (apply Hc'; reflexivity).
    rewrite Hnull. cbn [Z.eqb SQLITE_NULL Pos.eqb].
    split; [split; auto |].
    split; [split; [intros H; discriminate H | intros H; contradiction] |].
    split; reflexivity.
Qed.

Lemma GetColumn_string_spec_witness :
  column_text_contract one_row /\
  fst (Statement_GetColumn_string one_row 0
         (snd (Statement_GetColumnIsNull one_row 0
                 (sample_statement, on_row [Some "abc"%string; None])))) =
    Normal "abc"%string.
Proof.
  split.
  - exact one_row_contract.
  - exact (proj1 (proj2 (proj2 (proj2
      (GetColumn_string_spec one_row one_row_contract sample_statement 0
         (on_row [Some "abc"%string; None])))))).
Defined.

(** C9 as stated fails on a text with a null character inside: the column
    is not NULL, and [GetColumn<std::string>] returns only the characters
    before the null character, not the column's bytes. *)
Lemma GetColumn_string_truncates :
  let w := on_row [Some text_with_nul] in
  let isnull := Statement_GetColumnIsNull one_row 0 (sample_statement, w) in
  ret_text (answer (sqlite3_column_text 11 0) w) = Some text_with_nul /\
  fst isnull = Normal false /\
  fst (Statement_GetColumn_string one_row 0 (snd isnull)) = Normal "a"%string /\
  "a"%string <> text_with_nul.
Proof.
  cbv zeta. repeat split. intros H. discriminate H.
Qed.

(* ================================================================= *)
(** ** The statements a savepoint holds *)

Lemma same_statements_refl (a : Savepoint) : same_statements a a.
Proof. unfold same_statements. repeat split. Qed.

Lemma same_statements_trans (a b c : Savepoint) :
  same_statements a b -> same_statements b c -> same_statements a c.
Proof.
  unfold same_statements.
  intros (H1 & H2 & H3 & H4 & H5) (K1 & K2 & K3 & K4 & K5).
  repeat split; congruence.
Qed.

Lemma run_op_same_statements (E : Engine) (o : Op) (this : Savepoint)
    (w : World E) :
  same_statements this (fst (snd (run_op E o (this, w)))).
Proof.
  rewrite run_op_run.
  destruct (m_inProgress this); cbv zeta;
    repeat match goal with
           | |- context [if ?b then _ else _] => destruct b
           end;
    destruct o; cbn; unfold same_statements; repeat split.
Qed.

Lemma run_ops_same_statements (E : Engine) (ops : list Op) (this : Savepoint)
    (w : World E) :
  same_statements this (fst (snd (run_ops E ops (this, w)))).
Proof.
  revert this w. induction ops as [| o rest IH]; intros this w.
  - apply same_statements_refl.
  - cbn [run_ops]. unfold bind.
    pose proof (run_op_same_statements E o this w) as Hop.
    destruct (run_op E o (this, w)) as [[u | e | msg |] [this' w']];
      cbn [fst snd] in *; try exact Hop.
    apply (same_statements_trans this this'); [exact Hop | apply IH].
Qed.

(** C10 (amended). A savepoint holds two statements, rollback and commit.
    They are the second and third statement prepared by the constructor,
    and every sequence of [Commit] and [Rollback] leaves the savepoint with
    the same two statements.  The begin statement is a local of the
    constructor: its handle is the one the first prepare produced, it is
    stepped there, and the savepoint does not hold it. *)
Theorem Savepoint_holds_rollback_and_commit (E : Engine)
    (connection : Connection) (name : string) (w w' : World E)
    (this : Savepoint) (ops : list Op)
    (Hcreate : Savepoint_Create E connection name w = (Normal this, w')) :
  this = created E connection name w /\
  Savepoint_handles this =
    [out_handle (reply_rollback E connection name w);
     out_handle (reply_commit E connection name w)] /\
  trace w' = trace w ++ [prepare_begin connection name;
                         prepare_rollback connection name;
                         prepare_commit connection name;
                         sqlite3_step (out_handle (reply_begin E connection name w))] /\
  same_statements this (fst (snd (run_ops E ops (this, w')))) /\
  Savepoint_handles (fst (snd (run_ops E ops (this, w')))) =
    Savepoint_handles this.
Proof.
  assert (Hsame := run_ops_same_statements E ops this w').
  rewrite Savepoint_Create_run in Hcreate.
  repeat match type of Hcreate with
         | (if ?b then _ else _) = _ =>
             destruct b; [discriminate Hcreate |]
         end.
  injection Hcreate as Hthis Hw. subst this w'.
  split; [reflexivity |].
  split; [reflexivity |].
  split; [apply trace_after_step |].
  split; [exact Hsame |].
  destruct Hsame as (_ & Hr & _ & Hc & _).
  unfold Savepoint_handles. rewrite Hr, Hc. reflexivity.
Qed.

Lemma Savepoint_holds_rollback_and_commit_witness :
  Savepoint_Create scripted {| m_dbconn := 1 |} "s1" (start create_script) =
    (Normal sample_savepoint,
     after_step scripted {| m_dbconn := 1 |} "s1" (start create_script)) /\
  Savepoint_handles
    (fst (snd (run_ops scripted [OpCommit; OpRollback]
                 (sample_savepoint,
                  after_step scripted {| m_dbconn := 1 |} "s1"
                    (start create_script))))) = [12; 13].
Proof.
  split.
  - reflexivity.
  - exact (proj2 (proj2 (proj2 (proj2
      (Savepoint_holds_rollback_and_commit scripted {| m_dbconn := 1 |} "s1"
         (start create_script)
         (after_step scripted {| m_dbconn := 1 |} "s1" (start create_script))
         sample_savepoint [OpCommit; OpRollback] eq_refl))))).
Defined.

(** C10 as stated fails: the savepoint that [Savepoint::Create] returns
    holds two statements, and the begin statement, prepared first and
    stepped by the constructor, is not one of them. *)
Lemma Savepoint_does_not_hold_begin :
  let connection := {| m_dbconn := 1 |} in
  let run := Savepoint_Create scripted connection "s1" (start create_script) in
  fst run = Normal sample_savepoint /\
  out_handle (reply_begin scripted connection "s1" (start create_script)) = 11 /\
  In (sqlite3_step 11) (trace (snd run)) /\
  Savepoint_handles sample_savepoint = [12; 13] /\
  ~ In 11 (Savepoint_handles sample_savepoint) /\
  List.length (Savepoint_handles sample_savepoint) <> 3%nat.
Proof.
  cbv zeta. split; [reflexivity |].
  split; [reflexivity |].
  split; [cbn; auto 10 |].
  split; [reflexivity |].
  split.
  - cbn. intros [H | [H | []]]; discriminate H.
  - cbn. discriminate.
Qed.

(* ================================================================= *)
(** ** Further properties: Execute and Reset *)

Lemma Statement_Execute_run (E : Engine) (failFastOnError : bool)
    (this : Statement) (w : World E) :
  Statement_Execute E failFastOnError (this, w) =
    (match fst (Statement_Step E failFastOnError (this, w)) with
     | Normal true => Throw (HResultException E_UNEXPECTED)
     | Normal false => Normal tt
     | Throw e => Throw e
     | FailFast msg => FailFast msg
     | Undefined => Undefined
     end,
     snd (Statement_Step E failFastOnError (this, w))).
Proof.
  unfold Statement_Execute, bind.
  destruct (Statement_Step E failFastOnError (this, w))
    as [[[|] | e | msg |] s']; reflexivity.
Qed.

(** X1. [Execute] makes the one native call of [Step] and returns only when the
    engine reports [SQLITE_DONE].  When the engine reports a row it throws
    the HRESULT exception [E_UNEXPECTED], whatever [failFastOnError] is, and
    leaves the statement in state [HasRow]; every other status ends as in
    [Step], with the statement in state [Error]. *)
Theorem Statement_Execute_spec (E : Engine) (failFastOnError : bool)
    (this : Statement) (w : World E) :
  let c := sqlite3_step (m_stmt this) in
  let result := ret_val (answer c w) in
  let out := fst (Statement_Execute E failFastOnError (this, w)) in
  let this' := fst (snd (Statement_Execute E failFastOnError (this, w))) in
  let w' := snd (snd (Statement_Execute E failFastOnError (this, w))) in
  w' = after_call c w /\
  (out = Normal tt <-> result = SQLITE_DONE) /\
  (out = Throw (HResultException E_UNEXPECTED) <-> result = SQLITE_ROW) /\
  m_state this' =
    (if result =? SQLITE_ROW then HasRow
     else if result =? SQLITE_DONE then Completed else Error) /\
  (step_ok result = false ->
   out = if failFastOnError
         then FailFast "Critical SQL statement failed"
         else Throw (SQLiteException result (sqlite3_errstr E result))).
Proof.
  cbv zeta. rewrite Statement_Execute_run, Statement_Step_run. cbv zeta.
  unfold step_ok.
  set (result := ret_val (answer (sqlite3_step (m_stmt this)) w)).
  destruct (Z.eqb_spec result SQLITE_ROW) as [Hrow | Hrow].
  - cbn [fst snd orb]. split; [reflexivity |].
    split; [split; [intros H; discriminate H
                   | intros H; rewrite Hrow in H; discriminate H] |].
    split; [split; auto |].
    split; [reflexivity | intros H; discriminate H].
  - destruct (Z.eqb_spec result SQLITE_DONE) as [Hdone | Hdone].
    + cbn [fst snd orb]. split; [reflexivity |].
      split; [split; auto |].
      split; [split; [intros H; discriminate H | intros H; contradiction] |].
      split; [reflexivity | intros H; discriminate H].
    + cbn [fst snd orb]. split; [reflexivity |].
      split; [split; [destruct failFastOnError; intros H; discriminate H
                     | intros H; contradiction] |].
      split; [split; [destruct failFastOnError; intros H; discriminate H
                     | intros H; contradiction] |].
      split; [reflexivity | intros _; destruct failFastOnError; reflexivity].
Qed.

Lemma Statement_Reset_run (E : Engine) (this : Statement) (w : World E) :
  Statement_Reset E (this, w) =
    (Normal tt,
     (set_m_state Prepared this, after_call (sqlite3_reset (m_stmt this)) w)).
Proof.
  unfold Statement_Reset.
  unfold bind at 1. unfold on_this at 1, get, zoom. cbn [fst snd].
  unfold bind at 1. unfold in_world, zoom. cbn [fst snd].
  rewrite call_run. reflexivity.
Qed.

Lemma Statement_Step_world (E : Engine) (failFastOnError : bool)
    (this : Statement) (w : World E) :
  snd (snd (Statement_Step E failFastOnError (this, w))) =
    after_call (sqlite3_step (m_stmt this)) w /\
  m_stmt (fst (snd (Statement_Step E failFastOnError (this, w)))) = m_stmt this /\
  m_id (fst (snd (Statement_Step E failFastOnError (this, w)))) = m_id this.
Proof.
  rewrite Statement_Step_run. cbv zeta.
  repeat match goal with
         | |- context [if ?b then _ else _] => destruct b
         end; repeat split.
Qed.

(** X2. [Reset] after a [Step] that ended in any way (a row, completion, or a
    thrown error that left the statement in state [Error]) returns, whatever
    [sqlite3_reset] answers, and the statement is [Prepared] again with the
    handle and id it had; the engine has seen the step and then the reset of
    that handle.  A second [Reset] leaves the statement as the first did. *)
Theorem Statement_Reset_after_Step (E : Engine) (failFastOnError : bool)
    (this : Statement) (w : World E) :
  let stepped := snd (Statement_Step E failFastOnError (this, w)) in
  let reset := Statement_Reset E stepped in
  fst reset = Normal tt /\
  fst (snd reset) = set_m_state Prepared this /\
  trace (snd (snd reset)) =
    trace w ++ [sqlite3_step (m_stmt this); sqlite3_reset (m_stmt this)] /\
  fst (Statement_Reset E (snd reset)) = Normal tt /\
  fst (snd (Statement_Reset E (snd reset))) = fst (snd reset).
Proof.
  cbv zeta.
  destruct (Statement_Step_world E failFastOnError this w) as (Hw & Hh & Hi).
  destruct (Statement_Step E failFastOnError (this, w)) as [out [this' w']].
  cbn [fst snd] in *. rewrite Statement_Reset_run. cbn [fst snd].
  rewrite Statement_Reset_run. cbn [fst snd].
  unfold set_m_state. cbn [m_id m_stmt m_state]. rewrite Hh, Hi, Hw.
  split; [reflexivity |]. split; [reflexivity |].
  split; [| split; reflexivity].
  unfold after_call. cbn [trace]. rewrite <- app_assoc. reflexivity.
Qed.

(* ================================================================= *)
(** ** Further properties: binding null and integers, reading integers *)

Lemma checked_call_unit (E : Engine) (c : Call) (w : World E) :
  (THROW_IF_SQLITE_FAILED E (call E c) ;;; ret tt) w =
    (checked E c w tt, after_call c w).
Proof.
  unfold bind at 1. rewrite THROW_IF_SQLITE_FAILED_call.
  unfold checked. destruct (ret_val (answer c w) =? SQLITE_OK); reflexivity.
Qed.

Lemma checked_returns {A : Type} (E : Engine) (c : Call) (w : World E) (a : A) :
  checked E c w a = Normal a <-> ret_val (answer c w) = SQLITE_OK.
Proof.
  unfold checked.
  destruct (Z.eqb_spec (ret_val (answer c w)) SQLITE_OK) as [Hok | Hok].
  - split; auto.
  - split; [intros H; discriminate H | intros H; contradiction].
Qed.

(** X3. Binding the null marker, an [int] or an [int64_t] makes one native
    call, [sqlite3_bind_null], [sqlite3_bind_int] or [sqlite3_bind_int64],
    with the index and value given; it returns exactly when the engine
    answers [SQLITE_OK] and otherwise throws the [SQLiteException] with the
    engine's status and error string. *)
Theorem Bind_scalar_spec (E : Engine) (stmt index v : Z) (w : World E) :
  Bind_nullptr E stmt index w =
    (checked E (sqlite3_bind_null stmt index) w tt,
     after_call (sqlite3_bind_null stmt index) w) /\
  Bind_int E stmt index v w =
    (checked E (sqlite3_bind_int stmt index v) w tt,
     after_call (sqlite3_bind_int stmt index v) w) /\
  Bind_int64 E stmt index v w =
    (checked E (sqlite3_bind_int64 stmt index v) w tt,
     after_call (sqlite3_bind_int64 stmt index v) w) /\
  (forall c : Call,
     (checked E c w tt = Normal tt <-> ret_val (answer c w) = SQLITE_OK) /\
     (checked E c w tt =
        Throw (SQLiteException (ret_val (answer c w))
                 (sqlite3_errstr E (ret_val (answer c w))))
      <-> ret_val (answer c w) <> SQLITE_OK)).
Proof.
  unfold Bind_nullptr, Bind_int, Bind_int64. rewrite !checked_call_unit.
  repeat (split; [reflexivity |]).
  intros c. split; [apply checked_returns |].
  unfold checked.
  destruct (Z.eqb_spec (ret_val (answer c w)) SQLITE_OK) as [Hok | Hok].
  - split; [intros H; discriminate H | intros H; contradiction].
  - split; auto.
Qed.

(** X4. Reading an integer column or the last insert row id has no failure
    path: each makes its one native call and returns the engine's value.
    Reading a text column never throws and never ends the process: it
    returns a string or, from a null pointer, is undefined. *)
Theorem column_reads_do_not_throw (E : Engine) (stmt column : Z)
    (connection : Connection) (w : World E) :
  GetColumn_int E stmt column w =
    (Normal (ret_val (answer (sqlite3_column_int stmt column) w)),
     after_call (sqlite3_column_int stmt column) w) /\
  GetColumn_int64 E stmt column w =
    (Normal (ret_val (answer (sqlite3_column_int64 stmt column) w)),
     after_call (sqlite3_column_int64 stmt column) w) /\
  Connection_GetLastInsertRowID E connection w =
    (Normal (ret_val (answer (sqlite3_last_insert_rowid (m_dbconn connection)) w)),
     after_call (sqlite3_last_insert_rowid (m_dbconn connection)) w) /\
  (forall e, fst (GetColumn_string E stmt column w) <> Throw e) /\
  (forall msg, fst (GetColumn_string E stmt column w) <> FailFast msg) /\
  (fst (GetColumn_string E stmt column w) = Undefined <->
   ret_text (answer (sqlite3_column_text stmt column) w) = None).
Proof.
  unfold GetColumn_int, GetColumn_int64, Connection_GetLastInsertRowID.
  unfold bind. rewrite !call_run.
  repeat (split; [reflexivity |]).
  rewrite GetColumn_string_run. cbv zeta. cbn [fst].
  destruct (ret_text (answer (sqlite3_column_text stmt column) w)) as [text |].
  - split; [intros e H; discriminate H |].
    split; [intros msg H; discriminate H |].
    split; intros H; discriminate H.
  - split; [intros e H; discriminate H |].
    split; [intros msg H; discriminate H |].
    split; reflexivity.
Qed.

(* ================================================================= *)
(** ** Further properties: statement ids *)

Lemma Statement_ctor_counter (E : Engine) (connection : Connection)
    (sql : string_view) (persistent : bool) (w : World E) :
  statementId (snd (Statement_ctor E connection sql persistent w)) =
    size_t (statementId w + 1).
Proof.
  unfold Statement_ctor. unfold bind at 1. unfold GetNextStatementId.
  fold (next_id w).
  destruct (Statement_assertion sql) as [[|] |]; try reflexivity.
  unfold bind at 1. rewrite THROW_IF_SQLITE_FAILED_call.
  destruct (ret_val _ =? SQLITE_OK); reflexivity.
Qed.

(** X5. The statement constructor takes the next id before anything else: the
    process-wide counter has advanced by one (in [size_t]) when it ends,
    also when the assertion fails or the engine rejects the SQL, and a
    statement that is created carries the new counter value and is in state
    [Prepared] with the handle the engine produced. *)
Theorem Statement_ctor_takes_id (E : Engine) (connection : Connection)
    (sql : string_view) (persistent : bool) (w : World E) :
  let run := Statement_ctor E connection sql persistent w in
  statementId (snd run) = size_t (statementId w + 1) /\
  (forall st : Statement,
     fst run = Normal st ->
     m_id st = size_t (statementId w + 1) /\ m_state st = Prepared /\
     Statement_assertion sql = Some true /\
     trace (snd run) = trace w ++
       [sqlite3_prepare_v3 (m_dbconn connection) (sv_data sql)
          (Statement_nByte sql)
          (if persistent then SQLITE_PREPARE_PERSISTENT else 0)]).
Proof.
  cbv zeta. split; [apply Statement_ctor_counter |].
  intros st Hst.
  destruct (Statement_assertion sql) as [[|] |] eqn:Hassert.
  - rewrite (Statement_ctor_run E connection sql persistent w Hassert) in *.
    unfold prepares, checked in *. cbv zeta in *. cbn [fst snd] in *.
    destruct (ret_val _ =? SQLITE_OK); [| discriminate Hst].
    injection Hst as <-. repeat split.
  - unfold Statement_ctor, bind, GetNextStatementId in Hst.
    rewrite Hassert in Hst. discriminate Hst.
  - unfold Statement_ctor, bind, GetNextStatementId in Hst.
    rewrite Hassert in Hst. discriminate Hst.
Qed.

(** X6. Two statements created one after the other have consecutive ids, as
    long as the counter does not wrap: ids tell statements apart. *)
Theorem Statement_ids_consecutive (E : Engine) (connection : Connection)
    (sql1 sql2 : string) (persistent1 persistent2 : bool)
    (w w1 w2 : World E) (st1 st2 : Statement)
    (Hlow : 0 <= statementId w) (Hhigh : statementId w + 2 < 2 ^ 64)
    (H1 : Statement_Create_string E connection sql1 persistent1 w = (Normal st1, w1))
    (H2 : Statement_Create_string E connection sql2 persistent2 w1 = (Normal st2, w2)) :
  m_id st1 = statementId w + 1 /\ m_id st2 = m_id st1 + 1 /\
  m_id st1 <> m_id st2.
Proof.
  rewrite Statement_Create_string_run in H1, H2.
  unfold prepares, checked in H1, H2. cbv zeta in H1, H2.
  destruct (ret_val _ =? SQLITE_OK) in H1; [| discriminate H1].
  destruct (ret_val _ =? SQLITE_OK) in H2; [| discriminate H2].
  injection H1 as <- <-. injection H2 as <- _.
  cbn [m_id statementId next_id after_call]. unfold size_t.
  rewrite (Z.mod_small (statementId w + 1)) by lia.
  rewrite Z.mod_small by lia. lia.
Qed.

Lemma Statement_ids_consecutive_witness :
  m_id {| m_id := 1; m_stmt := 11; m_state := Prepared |} = 0 + 1 /\
  m_id {| m_id := 2; m_stmt := 12; m_state := Prepared |} =
    m_id {| m_id := 1; m_stmt := 11; m_state := Prepared |} + 1 /\
  m_id {| m_id := 1; m_stmt := 11; m_state := Prepared |} <>
    m_id {| m_id := 2; m_stmt := 12; m_state := Prepared |}.
Proof.
  exact (Statement_ids_consecutive scripted {| m_dbconn := 1 |}
           "SELECT 1" "SELECT 2" false true
           (start create_script)
           (after_call (prepare_of {| m_dbconn := 1 |} "SELECT 1" false)
              (next_id (start create_script)))
           (after_call (prepare_of {| m_dbconn := 1 |} "SELECT 2" true)
              (next_id
                 (after_call (prepare_of {| m_dbconn := 1 |} "SELECT 1" false)
                    (next_id (start create_script)))))
           {| m_id := 1; m_stmt := 11; m_state := Prepared |}
           {| m_id := 2; m_stmt := 12; m_state := Prepared |}
           ltac:(cbn; lia) ltac:(cbn; lia) eq_refl eq_refl).
Defined.

(* ================================================================= *)
(** ** Further properties: the overloads of Statement::Create *)

Lemma length_c_str (s : string) :
  String.length (c_str s) = S (String.length s).
Proof.
  unfold c_str. induction s as [| c s IH]; cbn; [reflexivity | rewrite IH; reflexivity].
Qed.

Lemma string_of_view_of_string (s : string) :
  string_of_view {| sv_data := c_str s; sv_size := size s |} = Some s.
Proof.
  unfold string_of_view, size. cbn [sv_data sv_size].
  rewrite length_c_str.
  destruct (Nat.leb_spec (String.length s) (S (String.length s))) as [_ | H];
    [| lia].
  unfold c_str. rewrite substring_prefix. reflexivity.
Qed.

(** X7. Creating a statement from a view of a [std::string]'s own characters
    is the same as creating it from the string: the copy the view overload
    makes is the string again, so the engine is handed an equal buffer and
    byte count and the result is the same. *)
Theorem Statement_Create_view_of_string (E : Engine) (connection : Connection)
    (sql : string) (persistent : bool) (w : World E) :
  string_of_view {| sv_data := c_str sql; sv_size := size sql |} = Some sql /\
  Statement_Create_string_view E connection
    {| sv_data := c_str sql; sv_size := size sql |} persistent w =
  Statement_Create_string E connection sql persistent w.
Proof.
  split; [apply string_of_view_of_string |].
  unfold Statement_Create_string_view.
  rewrite string_of_view_of_string. reflexivity.
Qed.




(** X8. The literal overload measures its text with [strlen].  For a literal
    without a null character inside it creates the statement exactly as
    the [std::string] overload does for the same text. *)
Theorem Statement_Create_literal_as_string (E : Engine)
    (connection : Connection) (literal : string) (persistent : bool)
    (w : World E)
    (Hno : forall i : nat, String.get i literal <> Some NUL) :
  view_of_cstr (c_str literal) =
    Some {| sv_data := c_str literal; sv_size := size literal |} /\
  Statement_Create_cstr E connection (c_str literal) persistent w =
  Statement_Create_string E connection literal persistent w.
Proof.
  assert (Hview : view_of_cstr (c_str literal) =
                  Some {| sv_data := c_str literal; sv_size := size literal |}).
  { unfold view_of_cstr. rewrite strlen_c_str.
    rewrite (until_NUL_without_NUL literal Hno). reflexivity. }
  split; [exact Hview |].
  unfold Statement_Create_cstr. rewrite Hview. reflexivity.
Qed.

Lemma Statement_Create_literal_as_string_witness :
  Statement_Create_cstr scripted {| m_dbconn := 1 |} (c_str "SELECT 1") false
    (start create_script) =
  Statement_Create_string scripted {| m_dbconn := 1 |} "SELECT 1" false
    (start create_script).
Proof.
  refine (proj2 (Statement_Create_literal_as_string scripted {| m_dbconn := 1 |}
                   "SELECT 1" false (start create_script) _)).
  intros i.
  do 9 (destruct i as [| i]; [cbn; discriminate |]).
  cbn. discriminate.
Defined.



(** X10. A view whose character at [size()] is not the null character does not
    reach the engine in a build with assertions: the constructor takes its
    id and stops at the assertion, without a native call. *)
Theorem Statement_ctor_assertion_fails (E : Engine) (connection : Connection)
    (sql : string_view) (persistent : bool) (w : World E) (c : ascii)
    (Hchar : String.get (sv_size sql) (sv_data sql) = Some c)
    (Hnot : c <> NUL) :
  Statement_ctor E connection sql persistent w =
    (FailFast "assert(sql.data()[sql.size()] == 0)", next_id w) /\
  trace (snd (Statement_ctor E connection sql persistent w)) = trace w.
Proof.
  assert (Hassert : Statement_assertion sql = Some false).
  { unfold Statement_assertion. rewrite Hchar.
    destruct (Ascii.eqb_spec c NUL); [contradiction | reflexivity]. }
  unfold Statement_ctor. unfold bind at 1. unfold GetNextStatementId.
  fold (next_id w). rewrite Hassert. split; reflexivity.
Qed.

Lemma Statement_ctor_assertion_fails_witness :
  trace (snd (Statement_ctor scripted {| m_dbconn := 1 |} unterminated_view
                false (start create_script))) = [].
Proof.
  refine (proj2 (Statement_ctor_assertion_fails scripted {| m_dbconn := 1 |}
                   unterminated_view false (start create_script) "c"%char
                   eq_refl _)).
  intros H. discriminate H.
Defined.

(* ================================================================= *)
(** ** Further properties: the life of a savepoint *)






(* ================================================================= *)
(** ** Further properties: text bound and read back *)





(* ================================================================= *)
(** ** Further properties: no state check, no id taken *)

Lemma Statement_GetColumn_string_run (E : Engine) (column : Z)
    (this : Statement) (w : World E) :
  Statement_GetColumn_string E column (this, w) =
    (fst (GetColumn_string E (m_stmt this) column w),
     (this, after_call (sqlite3_column_text (m_stmt this) column) w)).
Proof.
  unfold Statement_GetColumn_string.
  unfold bind at 1. unfold on_this at 1, get, zoom. cbn [fst snd].
  unfold in_world, zoom. cbn [fst snd].
  rewrite GetColumn_string_run. reflexivity.
Qed.


Lemma run_ops_counter (E : Engine) (ops : list Op) (this : Savepoint)
    (w : World E) :
  statementId (snd (snd (run_ops E ops (this, w)))) = statementId w.
Proof.
  revert this w. induction ops as [| o rest IH]; intros this w.
  - reflexivity.
  - cbn [run_ops]. unfold bind.
    assert (Hop : statementId (snd (snd (run_op E o (this, w)))) = statementId w).
    { rewrite run_op_run. destruct (m_inProgress this); cbv zeta;
        repeat match goal with
               | |- context [if ?b then _ else _] => destruct b
               end; reflexivity. }
    destruct (run_op E o (this, w)) as [[u | e | msg |] [this' w']];
      cbn [fst snd] in *; try exact Hop.
    rewrite IH. exact Hop.
Qed.

(** X15. Statement ids are taken by statement construction only: stepping,
    executing and resetting a statement, reading a column, binding text,
    opening a connection and any sequence of [Commit] and [Rollback] leave
    the process-wide counter as it was. *)
Theorem statement_counter_kept (E : Engine) (failFastOnError : bool)
    (this : Statement) (savepoint : Savepoint) (ops : list Op)
    (stmt index column disposition flags : Z) (v target : string)
    (w : World E) :
  statementId (snd (snd (Statement_Step E failFastOnError (this, w)))) =
    statementId w /\
  statementId (snd (snd (Statement_Execute E failFastOnError (this, w)))) =
    statementId w /\
  statementId (snd (snd (Statement_Reset E (this, w)))) = statementId w /\
  statementId (snd (snd (Statement_GetColumn_string E column (this, w)))) =
    statementId w /\
  statementId (snd (Bind_string E stmt index v w)) = statementId w /\
  statementId (snd (Connection_Create E target disposition flags w)) =
    statementId w /\
  statementId (snd (snd (run_ops E ops (savepoint, w)))) = statementId w.
Proof.
  rewrite Statement_Execute_run, Statement_Reset_run,
    Statement_GetColumn_string_run.
  cbn [fst snd].
  rewrite (proj1 (Statement_Step_world E failFastOnError this w)).
  unfold Bind_string. rewrite checked_call_unit. cbn [snd].
  repeat (split; [reflexivity |]).
  split; [| apply run_ops_counter].
  unfold Connection_Create, Connection_ctor.
  unfold bind at 1. unfold bind at 1. rewrite THROW_IF_SQLITE_FAILED_call.
  destruct (ret_val _ =? SQLITE_OK); [| reflexivity].
  unfold ret at 1. unfold bind at 1. rewrite THROW_IF_SQLITE_FAILED_call.
  destruct (ret_val _ =? SQLITE_OK); reflexivity.
Qed.
